(** * BusinessChat: the auto-reply trigger and the chat widget

    A shallow embedding of
    - the PL/pgSQL trigger function [handle_auto_reply] and the trigger
      [trigger_auto_reply] of the migrations (tables [widgets],
      [auto_replies], [chats], [chat_messages]);
    - the message-creating code paths of [src/widget/chat.js] and
      [pages/dashboard/ChatTab.jsx];
    - the widget's subscription handler, identification prompt and
      settings fetch ([BusinessChatPlugin]).

    Texts are modelled as strings of 8-bit characters; [lower] folds the
    ASCII letters, which is what PostgreSQL's [lower] does on them.

    The tables have row level security enabled, with policies for the
    role [authenticated] only.  A transaction carries the role it runs
    as; the trigger function is not [SECURITY DEFINER], so its statements
    run as the role of the insert that fired it. *)

From Stdlib Require Import Bool Arith List String Ascii ZArith Lia Permutation.
Import ListNotations.
Open Scope string_scope.

(* ================================================================== *)
(** * Part I: definitions *)
(* ================================================================== *)

(** ** SQL and JavaScript string functions *)

Module Text.

(** [lower] on one character: 'A'..'Z' go to 'a'..'z'. *)
Definition lower_char (c : ascii) : ascii :=
  let n := nat_of_ascii c in
  if ((65 <=? n) && (n <=? 90))%nat then ascii_of_nat (n + 32) else c.

(** SQL [lower(text)]. *)
Fixpoint lower (s : string) : string :=
  match s with
  | EmptyString => EmptyString
  | String c s' => String (lower_char c) (lower s')
  end.

(** SQL [position(sub in s)]: the 1-based index of the first occurrence
    of [sub] in [s], and 0 when there is none.  The empty string occurs
    at index 1 of every string. *)
Fixpoint position (sub s : string) : nat :=
  if String.prefix sub s then 1
  else match s with
       | EmptyString => 0
       | String _ s' =>
           match position sub s' with
           | 0 => 0
           | S k => S (S k)
           end
       end.

(** [sub] occurs somewhere inside [s]. *)
Definition substring_of (sub s : string) : Prop :=
  exists pre post, s = pre ++ sub ++ post.

(** JavaScript white space, as far as 8-bit characters go. *)
Definition is_space (c : ascii) : bool :=
  let n := nat_of_ascii c in
  ((n =? 32) || ((9 <=? n) && (n <=? 13)) || (n =? 160))%nat.

Fixpoint trim_start (s : string) : string :=
  match s with
  | EmptyString => EmptyString
  | String c s' => if is_space c then trim_start s' else s
  end.

(** Drops trailing white space: a character is kept when something
    that is kept follows it, or when it is not white space. *)
Fixpoint trim_end (s : string) : string :=
  match s with
  | EmptyString => EmptyString
  | String c s' =>
      match trim_end s' with
      | EmptyString => if is_space c then EmptyString else String c EmptyString
      | rest => String c rest
      end
  end.

(** JavaScript [String.prototype.trim]. *)
Definition trim (s : string) : string := trim_end (trim_start s).

(** JavaScript truthiness of a string value. *)
Definition truthy (s : string) : bool :=
  match s with EmptyString => false | _ => true end.

(** Truthiness of a value that is [null]/[undefined] or a string. *)
Definition truthy_opt (o : option string) : bool :=
  match o with None => false | Some s => truthy s end.

End Text.

(** ** The tables of the migrations *)

Definition uuid := nat.
Definition timestamptz := Z.

Module widgets.
Record row := mk {
  id : uuid;
  user_id : uuid;
  primary_color : option string;
  header_text : option string;
  welcome_message : option string;
  logo_url : option string;
  created_at : timestamptz;
  updated_at : timestamptz
}.
End widgets.

Module auto_replies.
Record row := mk {
  id : uuid;
  user_id : uuid;
  widget_id : uuid;
  keyword : string;
  response : string;
  created_at : timestamptz
}.
End auto_replies.

Module chats.
Record row := mk {
  id : uuid;
  widget_id : uuid;
  visitor_name : option string;
  visitor_email : option string;
  visitor_page : option string;
  created_at : timestamptz;
  updated_at : timestamptz
}.
End chats.

Module chat_messages.
Record row := mk {
  id : uuid;
  chat_id : uuid;
  widget_id : uuid;
  content : string;
  sender_type : string;
  is_auto_reply : bool;
  auto_reply_keyword : option string;
  created_at : timestamptz
}.

(** The columns an [INSERT] of the code supplies; [id] and [created_at]
    are always left to their defaults, and an omitted
    [auto_reply_keyword] is [NULL]. *)
Record values := mk_values {
  v_chat_id : uuid;
  v_widget_id : uuid;
  v_content : string;
  v_sender_type : string;
  v_is_auto_reply : bool;
  v_auto_reply_keyword : option string
}.
End chat_messages.

(** ** The matching query of [handle_auto_reply] *)

Module Matcher.
Import Text.

(** [position(lower(keyword) in lower(content)) > 0] *)
Definition contains_keyword (content : string) (r : auto_replies.row) : bool :=
  (0 <? position (lower (auto_replies.keyword r)) (lower content))%nat.

(** [ORDER BY length(keyword) DESC], as a stable insertion sort over the
    rows in scan order: among rows of equal keyword length the one
    scanned first stays first. *)
Fixpoint insert_desc (r : auto_replies.row) (sorted : list auto_replies.row)
  : list auto_replies.row :=
  match sorted with
  | [] => [r]
  | x :: xs =>
      if (String.length (auto_replies.keyword x) <=? String.length (auto_replies.keyword r))%nat
      then r :: x :: xs
      else x :: insert_desc r xs
  end.

Definition order_by_length_desc (rows : list auto_replies.row)
  : list auto_replies.row :=
  fold_right insert_desc [] rows.

(** [LIMIT 1], then [SELECT * INTO]: the first row, or all-[NULL]. *)
Definition limit_1_into (rows : list auto_replies.row) : option auto_replies.row :=
  hd_error (firstn 1 rows).

(** The query on the rules of one widget: the matcher. *)
Definition match_rule (content : string) (rules : list auto_replies.row)
  : option auto_replies.row :=
  limit_1_into (order_by_length_desc (filter (contains_keyword content) rules)).

(** The keyword of [r], lower-cased, occurs in [content] lower-cased. *)
Definition contained (content : string) (r : auto_replies.row) : Prop :=
  substring_of (lower (auto_replies.keyword r)) (lower content).

(** A rule the query may return for [content]: it is a rule of [rules],
    its keyword is contained, and no contained keyword is longer. *)
Definition best (content : string) (rules : list auto_replies.row)
    (w : auto_replies.row) : Prop :=
  In w rules /\ contained content w /\
  forall r, In r rules -> contained content r ->
    String.length (auto_replies.keyword r) <= String.length (auto_replies.keyword w).

End Matcher.

(** ** Statements that can raise *)

Inductive result (A : Type) : Type :=
| Ok (a : A)
| Raise (e : string).
Arguments Ok {A} a.
Arguments Raise {A} e.

Definition bind {A B} (m : result A) (k : A -> result B) : result B :=
  match m with
  | Ok a => k a
  | Raise e => Raise e
  end.

Notation "x <- m ;; k" := (bind m (fun x => k))
  (at level 61, m at next level, right associativity).

(** ** The database and the trigger *)

Module Database.
Import Text.

Record db := mk_db {
  tbl_widgets : list widgets.row;
  tbl_auto_replies : list auto_replies.row;
  tbl_chats : list chats.row;
  tbl_chat_messages : list chat_messages.row;
  (** the next value [gen_random_uuid()] gives *)
  next_uuid : uuid
}.

(** The four SQL statements in the body of [handle_auto_reply]. *)
Inductive statement :=
| select_widget_owner
| select_matching_reply
| insert_auto_reply
| update_chat.

(** The role a statement runs as: the owner of the tables, on whom row
    level security is not enforced; [authenticated], with the user
    [auth.uid()] gives; or [anon], the role of a client that has not
    signed in. *)
Inductive db_role :=
| table_owner
| authenticated (uid : uuid)
| anon.

(** A policy [TO authenticated USING (condition)] or [WITH CHECK
    (condition)], where [condition] depends on [auth.uid()]: whether it
    lets the role reach a row.  No policy is written for [anon]. *)
Definition policy (r : db_role) (condition : uuid -> bool) : bool :=
  match r with
  | table_owner => true
  | authenticated uid => condition uid
  | anon => false
  end.

(** What a transaction runs in: the value of [now()], which is the
    transaction's start time, which statements of the trigger body
    raise (store unavailable, time-out) in this execution, and the role
    of the session. *)
Record env := mk_env {
  now : timestamptz;
  raises : statement -> bool;
  role : db_role
}.

Definition run {A} (e : env) (s : statement) (name : string) (a : A) : result A :=
  if raises e s then Raise name else Ok a.

Definition set_chat_messages (d : db) (l : list chat_messages.row) (n : uuid) : db :=
  mk_db (tbl_widgets d) (tbl_auto_replies d) (tbl_chats d) l n.

Definition set_chats (d : db) (l : list chats.row) : db :=
  mk_db (tbl_widgets d) (tbl_auto_replies d) l (tbl_chat_messages d) (next_uuid d).

(** "Users can view their own widgets": [USING (auth.uid() = user_id)]. *)
Definition view_widget (r : db_role) (w : widgets.row) : bool :=
  policy r (fun uid => uid =? widgets.user_id w)%nat.

(** "Users can view their own auto replies":
    [USING (auth.uid() = user_id)]. *)
Definition view_auto_reply (r : db_role) (a : auto_replies.row) : bool :=
  policy r (fun uid => uid =? auto_replies.user_id a)%nat.

(** "Users can update chats for their widgets":
    [USING (widget_id IN (SELECT id FROM widgets WHERE user_id = auth.uid()))]. *)
Definition update_chat_allowed (r : db_role) (d : db) (c : chats.row) : bool :=
  policy r (fun uid =>
              existsb (fun w => (widgets.id w =? chats.widget_id c)%nat
                                && (widgets.user_id w =? uid)%nat)
                      (tbl_widgets d)).

(** "Anyone can create messages": [TO authenticated WITH CHECK (true)]. *)
Definition create_message_allowed (r : db_role) : bool :=
  policy r (fun _ => true).

(** [SELECT user_id INTO widget_owner_id FROM widgets WHERE id = NEW.widget_id],
    over the widgets the role can view. *)
Definition widget_owner_id (e : env) (d : db) (NEW : chat_messages.row) : option uuid :=
  option_map widgets.user_id
    (find (fun w => (widgets.id w =? chat_messages.widget_id NEW)%nat)
          (filter (view_widget (role e)) (tbl_widgets d))).

(** [SELECT * INTO matching_reply FROM auto_replies
     WHERE widget_id = NEW.widget_id
     AND position(lower(keyword) in lower(NEW.content)) > 0
     ORDER BY length(keyword) DESC LIMIT 1], over the rules the role can
    view. *)
Definition matching_reply (e : env) (d : db) (NEW : chat_messages.row)
  : option auto_replies.row :=
  Matcher.limit_1_into
    (Matcher.order_by_length_desc
       (filter (fun r => (auto_replies.widget_id r =? chat_messages.widget_id NEW)%nat
                         && Matcher.contains_keyword (chat_messages.content NEW) r)
               (filter (view_auto_reply (role e)) (tbl_auto_replies d)))).

(** The function of the [BEFORE UPDATE] triggers. *)
Definition update_updated_at_column (e : env) (NEW : chats.row) : chats.row :=
  chats.mk (chats.id NEW) (chats.widget_id NEW) (chats.visitor_name NEW)
           (chats.visitor_email NEW) (chats.visitor_page NEW) (chats.created_at NEW)
           (now e).

(** [UPDATE chats SET updated_at = v WHERE id = chat] with the
    [update_chats_updated_at] trigger applied to each updated row, as run
    for the dashboard: the chats it lists are those its user can view,
    and the policy for viewing a chat has the condition of the policy for
    updating it. *)
Definition update_chats_updated_at (e : env) (v : timestamptz) (chat : uuid) (d : db) : db :=
  set_chats d
    (map (fun c =>
            if (chats.id c =? chat)%nat
            then update_updated_at_column e
                   (chats.mk (chats.id c) (chats.widget_id c) (chats.visitor_name c)
                             (chats.visitor_email c) (chats.visitor_page c)
                             (chats.created_at c) v)
            else c)
         (tbl_chats d)).

(** [UPDATE chats SET updated_at = now() WHERE id = NEW.chat_id] as the
    trigger function runs it: on the rows the role may update, with the
    [update_chats_updated_at] trigger applied to each of them. *)
Definition update_chat_of (e : env) (chat : uuid) (d : db) : db :=
  set_chats d
    (map (fun c =>
            if (chats.id c =? chat)%nat && update_chat_allowed (role e) d c
            then update_updated_at_column e
                   (chats.mk (chats.id c) (chats.widget_id c) (chats.visitor_name c)
                             (chats.visitor_email c) (chats.visitor_page c)
                             (chats.created_at c) (now e))
            else c)
         (tbl_chats d)).


(** The [VALUES] of the [INSERT] in [handle_auto_reply]. *)
Definition auto_reply_values (NEW : chat_messages.row) (reply : auto_replies.row)
  : chat_messages.values :=
  chat_messages.mk_values
    (chat_messages.chat_id NEW)
    (chat_messages.widget_id NEW)
    (auto_replies.response reply)
    "business"
    true
    (Some (auto_replies.keyword reply)).

(** The trigger function.  [INSERT] is the statement
    [INSERT INTO chat_messages], which fires the trigger again.  The
    function has no [EXCEPTION] block: what a statement raises leaves the
    function and aborts the statement that fired the trigger.  The
    function is declared without [SECURITY DEFINER]: its statements run
    as the role of [e]. *)
Definition handle_auto_reply
    (INSERT : env -> db -> chat_messages.values -> result db)
    (e : env) (d : db) (NEW : chat_messages.row) : result db :=
  if String.eqb (chat_messages.sender_type NEW) "visitor" then
    _ <- run e select_widget_owner "select widgets" (widget_owner_id e d NEW) ;;
    found <- run e select_matching_reply "select auto_replies" (matching_reply e d NEW) ;;
    match found with
    | Some reply =>
        _ <- run e insert_auto_reply "insert chat_messages" tt ;;
        d1 <- INSERT e d (auto_reply_values NEW reply) ;;
        _ <- run e update_chat "update chats" tt ;;
        Ok (update_chat_of e (chat_messages.chat_id NEW) d1)
    | None => Ok d
    end
  else Ok d.

Definition references_chat (d : db) (c : uuid) : bool :=
  existsb (fun r => chats.id r =? c)%nat (tbl_chats d).

Definition references_widget (d : db) (w : uuid) : bool :=
  existsb (fun r => widgets.id r =? w)%nat (tbl_widgets d).

(** The row an [INSERT INTO chat_messages] stores. *)
Definition new_row (e : env) (d : db) (v : chat_messages.values) : chat_messages.row :=
  chat_messages.mk (next_uuid d)
    (chat_messages.v_chat_id v) (chat_messages.v_widget_id v)
    (chat_messages.v_content v) (chat_messages.v_sender_type v)
    (chat_messages.v_is_auto_reply v) (chat_messages.v_auto_reply_keyword v)
    (now e).

(** The table after the row is stored. *)
Definition store_row (e : env) (d : db) (v : chat_messages.values) : db :=
  set_chat_messages d (tbl_chat_messages d ++ [new_row e d v])%list (S (next_uuid d)).

(** The rules of one widget. *)
Definition rules_of (d : db) (w : uuid) : list auto_replies.row :=
  filter (fun r => (auto_replies.widget_id r =? w)%nat) (tbl_auto_replies d).

(** The rules of one widget that the role of [e] can view. *)
Definition visible_rules (e : env) (d : db) (w : uuid) : list auto_replies.row :=
  filter (view_auto_reply (role e)) (rules_of d w).

(** The store serves the transaction: its role may insert into
    [chat_messages], and no statement of the trigger body raises. *)
Definition available (e : env) : Prop :=
  create_message_allowed (role e) = true /\ forall s, raises e s = false.

(** Both foreign keys of the row have their target. *)
Definition references_ok (d : db) (v : chat_messages.values) : Prop :=
  references_chat d (chat_messages.v_chat_id v) = true /\
  references_widget d (chat_messages.v_widget_id v) = true.

(** The invariant of a stored message: there is a matched keyword exactly
    when the message is an auto-reply. *)
Definition keyword_iff_auto_reply (m : chat_messages.row) : Prop :=
  chat_messages.auto_reply_keyword m <> None <-> chat_messages.is_auto_reply m = true.

(** [INSERT INTO chat_messages (...) VALUES (...)] with the policy of
    the table for [INSERT], its foreign keys and the [AFTER INSERT ... FOR
    EACH ROW] trigger [trigger_auto_reply].  [depth] bounds the nesting
    of trigger calls, as the server's stack does.  A raised error leaves
    no new database: the statement is undone as a whole. *)
Fixpoint insert_chat_message (depth : nat) (e : env) (d : db)
    (v : chat_messages.values) : result db :=
  match depth with
  | 0 => Raise "stack depth limit exceeded"
  | S depth' =>
      if negb (create_message_allowed (role e)) then
        Raise "new row violates row-level security policy for table chat_messages"
      else if negb (references_chat d (chat_messages.v_chat_id v)) then
        Raise "violates foreign key constraint on chat_id"
      else if negb (references_widget d (chat_messages.v_widget_id v)) then
        Raise "violates foreign key constraint on widget_id"
      else
        handle_auto_reply (insert_chat_message depth') e (store_row e d v) (new_row e d v)
  end.

(** The nesting the server allows is far above what the trigger needs. *)
Definition max_depth : nat := 100.

(** What the client sees of an [INSERT]: the new database, or the old
    one and an error. *)
Definition commit (d : db) (r : result db) : db :=
  match r with
  | Ok d' => d'
  | Raise _ => d
  end.

End Database.

(** ** The rows the application inserts into [chat_messages] *)

Module Rows.

(** [BusinessChatPlugin.sendMessage]: the visitor's message. *)
Definition visitor_message (chatId widgetId : uuid) (content : string)
  : chat_messages.values :=
  chat_messages.mk_values chatId widgetId content "visitor" false None.

(** [BusinessChatPlugin.createChat]: the welcome message. *)
Definition welcome_message (chatId widgetId : uuid) (welcomeMessage : string)
  : chat_messages.values :=
  chat_messages.mk_values chatId widgetId welcomeMessage "business" false None.

(** [ChatTab.handleSendMessage]: the agent's message. *)
Definition business_message (activeChat widgetId : uuid) (newMessage : string)
  : chat_messages.values :=
  chat_messages.mk_values activeChat widgetId (Text.trim newMessage) "business" false None.

End Rows.

(** ** The operations that create messages *)

Module Operations.
Import Database.

Inductive operation :=
| widget_sendMessage (chatId widgetId : uuid) (value : string)
| widget_createChat_welcome (chatId widgetId : uuid) (welcomeMessage : string)
| dashboard_handleSendMessage (activeChat widgetId : uuid) (newMessage : string)
    (date : timestamptz) (later : env).

(** One operation against the database.  The dashboard's second
    statement, the update of [chats] with the client's [date], runs only
    after a successful insert, in a transaction of its own, [later]. *)
Definition perform (e : env) (d : db) (op : operation) : result db :=
  match op with
  | widget_sendMessage chatId widgetId value =>
      let content := Text.trim value in
      if negb (Text.truthy content) then Ok d
      else insert_chat_message max_depth e d (Rows.visitor_message chatId widgetId content)
  | widget_createChat_welcome chatId widgetId welcomeMessage =>
      insert_chat_message max_depth e d (Rows.welcome_message chatId widgetId welcomeMessage)
  | dashboard_handleSendMessage activeChat widgetId newMessage date later =>
      if negb (Text.truthy (Text.trim newMessage)) then Ok d
      else
        d1 <- insert_chat_message max_depth e d
                (Rows.business_message activeChat widgetId newMessage) ;;
        Ok (update_chats_updated_at later date activeChat d1)
  end.

(** A history of operations, each in its own transaction; an operation
    that raises leaves the database as it was. *)
Fixpoint perform_all (d : db) (ops : list (env * operation)) : db :=
  match ops with
  | [] => d
  | (e, op) :: rest => perform_all (commit d (perform e d op)) rest
  end.

Definition empty_db (ws : list widgets.row) (rules : list auto_replies.row)
    (cs : list chats.row) (n : uuid) : db :=
  mk_db ws rules cs [] n.

End Operations.

(** ** The chat widget, [BusinessChatPlugin] *)

Module Widget.
Import Text.

(** A message object of the [messages] array: a row received from the
    server, or an object the widget builds itself, which has no [id]
    until the server's answer is stored in it. *)
Record message := mk_message {
  id : option uuid;
  content : string;
  sender_type : string;
  is_auto_reply : bool;
  auto_reply_keyword : option string;
  created_at : timestamptz
}.

(** [payload.new] of an insert event: the stored row. *)
Definition of_row (r : chat_messages.row) : message :=
  mk_message (Some (chat_messages.id r)) (chat_messages.content r)
    (chat_messages.sender_type r) (chat_messages.is_auto_reply r)
    (chat_messages.auto_reply_keyword r) (chat_messages.created_at r).

Record settings := mk_settings {
  primaryColor : string;
  headerText : string;
  welcomeMessage : string;
  logoUrl : option string
}.

Record userInfo := mk_userInfo {
  name : option string;
  email : option string;
  chatCount : nat
}.

(** The children of [messagesElement]: a rendered message, or the
    identification form. *)
Inductive node :=
| message_node (m : message)
| user_info_form.

(** What [createWidgetElements] builds from the settings. *)
Record elements := mk_elements {
  backgroundColor : string;
  titleText : string;
  logo : option string
}.

(** The keys of [localStorage] the widget uses. *)
Record localStorage := mk_localStorage {
  businessChatId : option uuid;
  businessChatName : option string;
  businessChatEmail : option string;
  businessChatCount : option nat
}.

(** The requests the widget sends to the server that write. *)
Inductive request :=
| insert_chats (widget_id : uuid) (visitor_name visitor_email : option string)
| insert_chat_messages (chat_id : option uuid) (widget_id : uuid)
    (content sender_type : string) (is_auto_reply : bool)
| update_chats (chat_id : option uuid) (visitor_name visitor_email : string).

Record plugin := mk_plugin {
  widgetId : uuid;
  isOpen : bool;
  isInitialized : bool;
  chatId : option uuid;
  messages : list message;
  info : userInfo;
  current_settings : option settings;
  widgetElement : option elements;
  messagesElement : list node;
  (** [setTimeout] callbacks for [showUserInfoForm] not yet run *)
  timers : nat;
  storage : localStorage;
  (** the write requests sent so far, oldest first *)
  sent : list request
}.

(** The state the constructor leaves, before [init]. *)
Definition constructor (uid : uuid) (ls : localStorage) : plugin :=
  mk_plugin uid false false None [] (mk_userInfo None None 0) None None [] 0 ls [].

Definition set_messages (p : plugin) (ms : list message) (ns : list node) : plugin :=
  mk_plugin (widgetId p) (isOpen p) (isInitialized p) (chatId p) ms (info p)
    (current_settings p) (widgetElement p) ns (timers p) (storage p) (sent p).

Definition set_info (p : plugin) (i : userInfo) (ls : localStorage) : plugin :=
  mk_plugin (widgetId p) (isOpen p) (isInitialized p) (chatId p) (messages p) i
    (current_settings p) (widgetElement p) (messagesElement p) (timers p) ls (sent p).

Definition set_settings (p : plugin) (s : settings) : plugin :=
  mk_plugin (widgetId p) (isOpen p) (isInitialized p) (chatId p) (messages p) (info p)
    (Some s) (widgetElement p) (messagesElement p) (timers p) (storage p) (sent p).

Definition set_widgetElement (p : plugin) (el : elements) : plugin :=
  mk_plugin (widgetId p) (isOpen p) (isInitialized p) (chatId p) (messages p) (info p)
    (current_settings p) (Some el) (messagesElement p) (timers p) (storage p) (sent p).

Definition set_timers (p : plugin) (n : nat) : plugin :=
  mk_plugin (widgetId p) (isOpen p) (isInitialized p) (chatId p) (messages p) (info p)
    (current_settings p) (widgetElement p) (messagesElement p) n (storage p) (sent p).

Definition set_chatId (p : plugin) (c : option uuid) (ls : localStorage) : plugin :=
  mk_plugin (widgetId p) (isOpen p) (isInitialized p) c (messages p) (info p)
    (current_settings p) (widgetElement p) (messagesElement p) (timers p) ls (sent p).

Definition set_flags (p : plugin) (open initialized : bool) : plugin :=
  mk_plugin (widgetId p) open initialized (chatId p) (messages p) (info p)
    (current_settings p) (widgetElement p) (messagesElement p) (timers p) (storage p)
    (sent p).

Definition send (p : plugin) (r : request) : plugin :=
  mk_plugin (widgetId p) (isOpen p) (isInitialized p) (chatId p) (messages p) (info p)
    (current_settings p) (widgetElement p) (messagesElement p) (timers p) (storage p)
    (sent p ++ [r])%list.

(** What an awaited request gives: [{ data, error }], or a rejection. *)
Inductive response (A : Type) :=
| resolved (data : option A) (error : option string)
| rejected (reason : string).
Arguments resolved {A} data error.
Arguments rejected {A} reason.

(** [const { data, error } = await ...; if (error) throw error;]
    followed by a use of a property of [data]. *)
Definition data_or_throw {A} (r : response A) : result A :=
  match r with
  | rejected reason => Raise reason
  | resolved _ (Some err) => Raise err
  | resolved None None => Raise "TypeError: data is null"
  | resolved (Some a) None => Ok a
  end.

(** [try { body } catch (error) { handler }] *)
Definition try_catch {A} (body : result A) (handler : string -> A) : A :=
  match body with
  | Ok a => a
  | Raise err => handler err
  end.

(** [v || d] for strings. *)
Definition or_default (v : option string) (d : string) : string :=
  match v with
  | Some s => if truthy s then s else d
  | None => d
  end.

Definition default_settings : settings :=
  mk_settings "#0284c7" "Chat with us" "Hello! How can we help you today?" None.

(** [fetchWidgetSettings]: the [try] block, then the whole method. *)
Definition fetchWidgetSettings_try (p : plugin) (r : response widgets.row)
  : result plugin :=
  data <- data_or_throw r ;;
  Ok (set_settings p
        (mk_settings
           (or_default (widgets.primary_color data) "#0284c7")
           (or_default (widgets.header_text data) "Chat with us")
           (or_default (widgets.welcome_message data) "Hello! How can we help you today?")
           (if truthy_opt (widgets.logo_url data) then widgets.logo_url data else None))).

Definition fetchWidgetSettings (p : plugin) (r : response widgets.row) : result plugin :=
  Ok (try_catch (fetchWidgetSettings_try p r)
        (fun _ => set_settings p default_settings)).

(** [createWidgetElements] reads [this.settings]; without settings the
    property access throws. *)
Definition createWidgetElements (p : plugin) : result plugin :=
  match current_settings p with
  | None => Raise "TypeError: settings is undefined"
  | Some s => Ok (set_widgetElement p
                    (mk_elements (primaryColor s) (headerText s) (logoUrl s)))
  end.

(** [saveChatHistory] *)
Definition saveChatHistory (p : plugin) : plugin :=
  let ls := storage p in
  set_info p (info p)
    (mk_localStorage (businessChatId ls) (businessChatName ls) (businessChatEmail ls)
       (Some (chatCount (info p)))).

(** [addMessage]: push to the array, render, save. *)
Definition addMessage (p : plugin) (m : message) : plugin :=
  saveChatHistory
    (set_messages p (messages p ++ [m])%list (messagesElement p ++ [message_node m])%list).

(** [m.id === payload.new.id] *)
Definition same_id (a b : option uuid) : bool :=
  match a, b with
  | Some x, Some y => (x =? y)%nat
  | None, None => true
  | _, _ => false
  end.

(** The callback [subscribeToMessages] registers for insert events. *)
Definition on_insert (p : plugin) (payload_new : message) : plugin :=
  if String.eqb (sender_type payload_new) "business"
     && negb (existsb (fun m => same_id (id m) (id payload_new)) (messages p))
  then addMessage p payload_new
  else p.

(** The synchronous part of [loadChatHistory]. *)
Definition loadChatHistory (p : plugin) : plugin :=
  let ls := storage p in
  set_info (set_chatId p (businessChatId ls) ls)
    (mk_userInfo (businessChatName ls) (businessChatEmail ls)
       (match businessChatCount ls with Some n => n | None => 0 end))
    ls.

(** The [then] callback of [loadChatHistory]. *)
Definition on_history (p : plugin) (r : response (list chat_messages.row)) : plugin :=
  match r with
  | rejected _ => p
  | resolved _ (Some _) => p
  | resolved None None => set_messages p [] []
  | resolved (Some data) None =>
      fold_left addMessage (map of_row data) (set_messages p [] [])
  end.

(** [init]: an exception ends it with a log entry, and what was
    assigned before stays assigned. *)
Definition init (p : plugin) (script : result unit) (r : response widgets.row) : plugin :=
  match script with
  | Raise _ => p
  | Ok _ =>
      match fetchWidgetSettings p r with
      | Raise _ => p
      | Ok p1 =>
          match createWidgetElements p1 with
          | Raise _ => p1
          | Ok p2 =>
              let p3 := loadChatHistory p2 in
              set_flags p3 (isOpen p3) true
          end
      end
  end.

(** [createChat]: [r] answers the insert into [chats], [w] the insert of
    the welcome message.  What the [try] block has assigned before an
    exception stays assigned; the [catch] only logs. *)
Definition createChat (p : plugin) (r : response uuid) (w : response unit) : plugin :=
  let p0 := send p (insert_chats (widgetId p) (name (info p)) (email (info p))) in
  let save_id (q : plugin) : plugin :=
    let ls := storage q in
    set_chatId q (chatId q)
      (mk_localStorage (chatId q) (businessChatName ls) (businessChatEmail ls)
         (businessChatCount ls)) in
  match data_or_throw r with
  | Raise _ => p0
  | Ok data =>
      let p1 := set_chatId p0 (Some data) (storage p0) in
      match messages p1 with
      | [] => save_id p1
      | _ :: _ =>
          match current_settings p1 with
          | None => p1
          | Some s =>
              let p2 := send p1 (insert_chat_messages (chatId p1) (widgetId p1)
                                   (welcomeMessage s) "business" false) in
              match w with
              | rejected _ => p2
              | resolved _ _ => save_id p2
              end
          end
      end
  end.

(** [toggleWidget(forceState)], with the [createChat] it starts run to
    its end. *)
Definition toggleWidget (p : plugin) (forceState : option bool) (date : timestamptz)
    (r : response uuid) (w : response unit) : plugin :=
  let newState := match forceState with Some b => b | None => negb (isOpen p) end in
  if newState then
    let p1 := set_flags p true (isInitialized p) in
    match messages p1 with
    | [] =>
        match current_settings p1 with
        | None => p1
        | Some s =>
            let p2 := addMessage p1
                        (mk_message None (welcomeMessage s) "business" false None date) in
            match chatId p2 with
            | None => createChat p2 r w
            | Some _ => p2
            end
        end
    | _ :: _ => p1
    end
  else set_flags p false (isInitialized p).

(** [messageObj.id = data.id] on the object stored at [index]. *)
Fixpoint assign_id (ms : list message) (index : nat) (i : uuid) : list message :=
  match ms, index with
  | [], _ => []
  | m :: rest, 0 =>
      mk_message (Some i) (content m) (sender_type m) (is_auto_reply m)
        (auto_reply_keyword m) (created_at m) :: rest
  | m :: rest, S k => m :: assign_id rest k i
  end.

(** The identification prompt is asked for. *)
Definition wants_user_info (i : userInfo) : bool :=
  (5 <=? chatCount i)%nat && negb (truthy_opt (name i)) && negb (truthy_opt (email i)).

(** [sendMessage] after a successful insert: the part of the [try]
    block behind [if (error) throw error]. *)
Definition after_insert (p : plugin) (index : nat) (data : uuid) : plugin :=
  let p1 := set_messages p (assign_id (messages p) index data) (messagesElement p) in
  let i := mk_userInfo (name (info p1)) (email (info p1)) (S (chatCount (info p1))) in
  let ls := storage p1 in
  let p2 := set_info p1 i
              (mk_localStorage (businessChatId ls) (businessChatName ls)
                 (businessChatEmail ls) (Some (chatCount i))) in
  if wants_user_info (info p2) then set_timers p2 (S (timers p2)) else p2.

(** [sendMessage]: [value] is the text area's content, [r] and [w]
    answer [createChat] when it is called, and [ins] answers the insert
    of the message. *)
Definition sendMessage (p : plugin) (value : string) (date : timestamptz)
    (r : response uuid) (w : response unit) (ins : response uuid) : plugin :=
  let content := trim value in
  if negb (truthy content) then p
  else
    let p1 := match chatId p with
              | None => createChat p r w
              | Some _ => p
              end in
    let index := List.length (messages p1) in
    let p2 := addMessage p1 (mk_message None content "visitor" false None date) in
    let p3 := send p2 (insert_chat_messages (chatId p2) (widgetId p2)
                         content "visitor" false) in
    try_catch
      (data <- data_or_throw ins ;; Ok (after_insert p3 index data))
      (fun _ => p3).

(** [showUserInfoForm], run by a timer. *)
Definition showUserInfoForm (p : plugin) : plugin :=
  set_messages p (messages p) (messagesElement p ++ [user_info_form])%list.

Definition timeout (p : plugin) : plugin :=
  match timers p with
  | 0 => p
  | S n => showUserInfoForm (set_timers p n)
  end.

(** [formContainer.remove()] for the form that is child [pos]. *)
Fixpoint remove_child (ns : list node) (pos : nat) : list node :=
  match ns, pos with
  | [], _ => []
  | _ :: rest, 0 => rest
  | n :: rest, S k => n :: remove_child rest k
  end.

Definition thank_you (n : string) : string :=
  "Thank you, " ++ n ++ "! We'll use your contact information to follow up if needed.".

Definition is_form (n : option node) : bool :=
  match n with Some user_info_form => true | _ => false end.

(** The click handler of the submit button of the form that is child
    [pos]; [u] answers the update of [chats]. *)
Definition submit (p : plugin) (pos : nat) (nameInput emailInput : string)
    (date : timestamptz) (u : response unit) : plugin :=
  if negb (is_form (nth_error (messagesElement p) pos)) then p
  else
    let n := trim nameInput in
    let m := trim emailInput in
    if truthy n && truthy m then
      let ls := storage p in
      let p1 := set_info p (mk_userInfo (Some n) (Some m) (chatCount (info p)))
                  (mk_localStorage (businessChatId ls) (Some n) (Some m)
                     (businessChatCount ls)) in
      let p2 := send p1 (update_chats (chatId p1) n m) in
      match u with
      | rejected _ => p2
      | resolved _ _ =>
          let p3 := addMessage p2 (mk_message None (thank_you n) "business" false None date) in
          set_messages p3 (messages p3) (remove_child (messagesElement p3) pos)
      end
    else p.

(** What can happen to a widget once it is initialized. *)
Inductive event :=
| ev_toggle (forceState : option bool) (date : timestamptz)
    (r : response uuid) (w : response unit)
| ev_send (value : string) (date : timestamptz)
    (r : response uuid) (w : response unit) (ins : response uuid)
| ev_timeout
| ev_submit (pos : nat) (nameInput emailInput : string) (date : timestamptz)
    (u : response unit)
| ev_insert (row : chat_messages.row)
| ev_history (r : response (list chat_messages.row)).

Definition step (p : plugin) (ev : event) : plugin :=
  match ev with
  | ev_toggle forceState date r w => toggleWidget p forceState date r w
  | ev_send value date r w ins => sendMessage p value date r w ins
  | ev_timeout => timeout p
  | ev_submit pos n m date u => submit p pos n m date u
  | ev_insert row => on_insert p (of_row row)
  | ev_history r => on_history p r
  end.

Definition run_events (p : plugin) (evs : list event) : plugin :=
  fold_left step evs p.

(** The forms on display. *)
Definition forms (p : plugin) : nat :=
  List.length (filter (fun n => is_form (Some n)) (messagesElement p)).

(** How often a message with the given id is in a list. *)
Definition count_id (x : uuid) (ms : list message) : nat :=
  List.length (filter (fun m => same_id (id m) (Some x)) ms).

Definition rendered (ns : list node) : list message :=
  flat_map (fun n => match n with message_node m => [m] | user_info_form => [] end) ns.

(** A request that did not give its data: rejected, answered with an
    error, or answered without data. *)
Definition failed {A} (r : response A) : Prop :=
  match r with
  | resolved (Some _) None => False
  | _ => True
  end.

(** Name and email are both captured. *)
Definition identified (p : plugin) : Prop :=
  truthy_opt (name (info p)) = true /\ truthy_opt (email (info p)) = true.




End Widget.

(** ** Sample data *)

Module Sample.
Import Database.

Definition rule_hi : auto_replies.row := auto_replies.mk 1 7 1 "hi" "A" 0%Z.
Definition rule_hi_there : auto_replies.row := auto_replies.mk 2 7 1 "hi there" "B" 0%Z.
Definition rule_yo : auto_replies.row := auto_replies.mk 3 7 1 "yo" "C" 0%Z.
Definition rule_hours : auto_replies.row := auto_replies.mk 4 7 1 "hours" "9-5 EST" 0%Z.

Definition widget_1 : widgets.row := widgets.mk 1 7 None None None None 0%Z 0%Z.
Definition chat_1 : chats.row := chats.mk 1 1 None None None 0%Z 0%Z.

(** One widget with the rule "hours", one chat, no message yet. *)
Definition shop : db := mk_db [widget_1] [rule_hours] [chat_1] [] 10.

(** A transaction at time 1000 in which every statement works, run by
    user 7, the owner of the widget and of the rules. *)
Definition fine : env := mk_env 1000%Z (fun _ => false) (authenticated 7).

(** A transaction in which the read of [auto_replies] fails. *)
Definition rule_read_fails : env :=
  mk_env 1000%Z (fun s => match s with select_matching_reply => true | _ => false end)
    (authenticated 7).

(** The same transaction as [fine], run by user 9, who owns nothing. *)
Definition visitor_9 : env := mk_env 1000%Z (fun _ => false) (authenticated 9).

(** The same transaction, run without sign-in, as the chat widget runs
    its requests. *)
Definition not_signed_in : env := mk_env 1000%Z (fun _ => false) anon.

Definition hours_question : chat_messages.values :=
  Rows.visitor_message 1 1 "what are your hours?".

(** A widget that could not fetch its settings, on a page without stored
    session. *)
Definition offline_widget : Widget.plugin :=
  Widget.init
    (Widget.constructor 1 (Widget.mk_localStorage None None None None))
    (Ok tt) (Widget.rejected "Failed to fetch").

(** The visitor sends "hello"; the server stores it under [i].  When
    there is no chat yet it is created with id 1. *)
Definition hello (i : uuid) : Widget.event :=
  Widget.ev_send "hello" 5%Z (Widget.resolved (Some 1) None)
    (Widget.resolved None None) (Widget.resolved (Some i) None).

Definition six_messages : list Widget.event :=
  [hello 11; hello 12; hello 13; hello 14; hello 15; hello 16].

End Sample.

(** ** JavaScript string and array functions used by the dashboard *)

Module Js.
Import Text.

(** [s.split(sep)] for a separator of one character. *)
Fixpoint split (sep : ascii) (s : string) : list string :=
  match s with
  | EmptyString => [EmptyString]
  | String c s' =>
      if Ascii.eqb c sep then EmptyString :: split sep s'
      else match split sep s' with
           | h :: t => String c h :: t
           | [] => [String c EmptyString]
           end
  end.

(** [l.findIndex(f)]; [None] stands for -1. *)
Fixpoint findIndex {A} (f : A -> bool) (l : list A) : option nat :=
  match l with
  | [] => None
  | a :: rest => if f a then Some 0 else option_map S (findIndex f rest)
  end.

(** [s.includes(sub)] *)
Definition includes (s sub : string) : bool := (0 <? position sub s)%nat.

(** A string of white space only, the empty string included. *)
Fixpoint blank (s : string) : bool :=
  match s with
  | EmptyString => true
  | String c s' => is_space c && blank s'
  end.

Definition comma : ascii := ","%char.
Definition newline : ascii := "010"%char.

End Js.

(** ** The auto-reply page of the dashboard, [AutoReply] *)

Module AutoReplyPage.
Import Text Js.

(** A row as the page inserts it into [auto_replies]. *)
Record values := mk_values {
  v_user_id : uuid;
  v_widget_id : uuid;
  v_keyword : string;
  v_response : string
}.

(** [handleAddAutoReply]: the rows to insert, or the error shown. *)
Definition handleAddAutoReply (user widgetId : uuid) (keyword response : string)
  : result (list values) :=
  if negb (truthy (trim keyword)) || negb (truthy (trim response)) then
    Raise "Both keyword and response are required."
  else Ok [mk_values user widgetId (trim keyword) (trim response)].

(** [columns[i]?.trim()] *)
Definition column (columns : list string) (i : nat) : option string :=
  option_map trim (nth_error columns i).

(** The body of the loop of [handleCSVUpload] for one data row. *)
Definition parse_row (keywordIndex responseIndex : nat) (user widgetId : uuid)
    (row : string) : list values :=
  if negb (truthy (trim row)) then []
  else
    let columns := split comma row in
    match column columns keywordIndex, column columns responseIndex with
    | Some keywordValue, Some responseValue =>
        if truthy keywordValue && truthy responseValue
        then [mk_values user widgetId keywordValue responseValue]
        else []
    | _, _ => []
    end.

Definition is_header (name : string) (h : string) : bool :=
  String.eqb (lower (trim h)) name.

(** [handleCSVUpload], from the text of the file on: the rows to insert,
    or the error shown. *)
Definition handleCSVUpload (user widgetId : uuid) (csvText : string)
  : result (list values) :=
  let rows := split newline csvText in
  let headers := split comma (hd EmptyString rows) in
  match findIndex (is_header "keyword") headers,
        findIndex (is_header "response") headers with
  | Some keywordIndex, Some responseIndex =>
      match flat_map (parse_row keywordIndex responseIndex user widgetId) (tl rows) with
      | [] => Raise "No valid data found in the CSV file."
      | newAutoReplies => Ok newAutoReplies
      end
  | _, _ => Raise "Invalid CSV format. Please use the template provided."
  end.

(** [filteredAutoReplies] *)
Definition filteredAutoReplies (searchTerm : string)
    (autoReplies : list auto_replies.row) : list auto_replies.row :=
  if truthy searchTerm then
    filter (fun item =>
              includes (lower (auto_replies.keyword item)) (lower searchTerm)
              || includes (lower (auto_replies.response item)) (lower searchTerm))
           autoReplies
  else autoReplies.

(** The insert of the rows, one statement: ids and [created_at] are the
    defaults, and every row must reference a widget. *)
Definition store (e : Database.env) (d : Database.db) (rows : list values)
  : result Database.db :=
  if forallb (fun v => Database.references_widget d (v_widget_id v)) rows then
    Ok (Database.mk_db (Database.tbl_widgets d)
          (Database.tbl_auto_replies d ++
           map (fun iv => auto_replies.mk (fst iv) (v_user_id (snd iv))
                            (v_widget_id (snd iv)) (v_keyword (snd iv))
                            (v_response (snd iv)) (Database.now e))
               (combine (seq (Database.next_uuid d) (List.length rows)) rows))%list
          (Database.tbl_chats d) (Database.tbl_chat_messages d)
          (Database.next_uuid d + List.length rows))
  else Raise "violates foreign key constraint on widget_id".

(** [DELETE FROM auto_replies WHERE id = i] *)
Definition delete (d : Database.db) (i : uuid) : Database.db :=
  Database.mk_db (Database.tbl_widgets d)
    (filter (fun r => negb (auto_replies.id r =? i)%nat) (Database.tbl_auto_replies d))
    (Database.tbl_chats d) (Database.tbl_chat_messages d) (Database.next_uuid d).

(** What the owner does on the page. *)
Inductive action :=
| add (user widgetId : uuid) (keyword response : string)
| upload (user widgetId : uuid) (csvText : string)
| remove (i : uuid).

(** One action against the database; an action that is refused, by the
    page or by the database, leaves the database as it was. *)
Definition perform (e : Database.env) (d : Database.db) (a : action) : Database.db :=
  match a with
  | add user widgetId keyword response =>
      Database.commit d
        (rows <- handleAddAutoReply user widgetId keyword response ;; store e d rows)
  | upload user widgetId csvText =>
      Database.commit d (rows <- handleCSVUpload user widgetId csvText ;; store e d rows)
  | remove i => delete d i
  end.

Fixpoint perform_all (d : Database.db) (acts : list (Database.env * action))
  : Database.db :=
  match acts with
  | [] => d
  | (e, a) :: rest => perform_all (perform e d a) rest
  end.

(** A keyword or response as the page stores it: not empty, and without
    white space around it. *)
Definition clean (s : string) : Prop := s <> EmptyString /\ trim s = s.

Definition well_formed (r : auto_replies.row) : Prop :=
  clean (auto_replies.keyword r) /\ clean (auto_replies.response r).

End AutoReplyPage.

(** ** The settings page of the dashboard, [WidgetSettings] *)

Module WidgetSettingsPage.
Import Text.

(** [.single()] on the rows a query selects: the one row, or the error
    PGRST116 when there is none or more than one. *)
Definition single {A} (rows : list A) : Widget.response A :=
  match rows with
  | [a] => Widget.resolved (Some a) None
  | _ => Widget.resolved None (Some "PGRST116")
  end.

(** What the server does with a request of the page: it runs it, or it
    fails (it is not reached, it times out) and answers an error with
    [code], having changed nothing. *)
Inductive server :=
| runs
| fails (code : string).

(** The query of [BusinessChatPlugin.fetchWidgetSettings], over the
    widgets the role of [e] can view. *)
Definition select_widget (e : Database.env) (d : Database.db) (widgetId : uuid)
  : Widget.response widgets.row :=
  single (filter (fun w => widgets.id w =? widgetId)%nat
            (filter (Database.view_widget (Database.role e)) (Database.tbl_widgets d))).

(** The state of the page. *)
Record page := mk_page {
  widgetId : option uuid;
  primaryColor : string;
  headerText : string;
  welcomeMessage : string;
  logoUrl : string
}.

(** The initial values of [useState]. *)
Definition initial : page :=
  mk_page None "#0284c7" "Chat with us" "Hello! How can we help you today?" "".

(** The row the page inserts for a user without widget. *)
Definition new_widget (e : Database.env) (d : Database.db) (user : uuid) : widgets.row :=
  widgets.mk (Database.next_uuid d) user
    (Some "#0284c7") (Some "Chat with us") (Some "Hello! How can we help you today?")
    None (Database.now e) (Database.now e).

Definition insert_widget (e : Database.env) (d : Database.db) (user : uuid) : Database.db :=
  Database.mk_db (Database.tbl_widgets d ++ [new_widget e d user])%list
    (Database.tbl_auto_replies d) (Database.tbl_chats d) (Database.tbl_chat_messages d)
    (S (Database.next_uuid d)).

(** "Users can create their own widgets":
    [WITH CHECK (auth.uid() = user_id)]. *)
Definition create_widget_allowed (r : Database.db_role) (user : uuid) : bool :=
  Database.policy r (fun uid => uid =? user)%nat.

(** "Users can update their own widgets": [USING (auth.uid() = user_id)]. *)
Definition update_widget_allowed (r : Database.db_role) (w : widgets.row) : bool :=
  Database.policy r (fun uid => uid =? widgets.user_id w)%nat.

(** [supabase.from('widgets').select('*').eq('user_id', user.id).single()] *)
Definition select_own_widget (e : Database.env) (d : Database.db) (user : uuid)
    (s : server) : Widget.response widgets.row :=
  match s with
  | fails code => Widget.resolved None (Some code)
  | runs =>
      single (filter (fun w => widgets.user_id w =? user)%nat
                (filter (Database.view_widget (Database.role e)) (Database.tbl_widgets d)))
  end.

(** [supabase.from('widgets').insert([{ user_id: user.id, ... }]).select().single()] *)
Definition insert_own_widget (e : Database.env) (d : Database.db) (user : uuid)
    (s : server) : result Database.db :=
  match s with
  | fails code => Raise code
  | runs =>
      if create_widget_allowed (Database.role e) user then Ok (insert_widget e d user)
      else Raise "new row violates row-level security policy for table widgets"
  end.

(** What the [catch] blocks of the page show. *)
Definition load_failed : string := "Failed to load widget settings. Please try again.".
Definition save_failed : string := "Failed to save widget settings. Please try again.".

(** [fetchWidgetSettings] of the page: the user's widget is read, and
    created when [.single()] gave no row.  An error of the read other
    than PGRST116, and any error of the insert, is thrown to the [catch]
    block, which changes neither the database nor the values of the
    page. *)
Definition fetchWidgetSettings (e : Database.env) (d : Database.db) (user : uuid)
    (st : page) (select insert : server) : result (Database.db * page) :=
  match select_own_widget e d user select with
  | Widget.rejected _ => Raise load_failed
  | Widget.resolved widgets widgetsError =>
      if match widgetsError with
         | Some code => negb (String.eqb code "PGRST116")
         | None => false
         end
      then Raise load_failed
      else
        match widgets with
        | Some w =>
            Ok (d, mk_page (Some (widgets.id w))
                     (Widget.or_default (widgets.primary_color w) "#0284c7")
                     (Widget.or_default (widgets.header_text w) "Chat with us")
                     (Widget.or_default (widgets.welcome_message w)
                        "Hello! How can we help you today?")
                     (Widget.or_default (widgets.logo_url w) ""))
        | None =>
            match insert_own_widget e d user insert with
            | Raise _ => Raise load_failed
            | Ok d' =>
                Ok (d', mk_page (Some (Database.next_uuid d)) (primaryColor st)
                          (headerText st) (welcomeMessage st) (logoUrl st))
            end
        end
  end.

(** [handleSave]: the update of the widget, on the rows the role may
    update, with the [update_widgets_updated_at] trigger.  An error of
    the update is thrown to the [catch] block.  Before a widget is
    loaded [widgetId] is the empty text, which the server refuses as no
    uuid. *)
Definition handleSave (e : Database.env) (d : Database.db) (st : page) (update : server)
  : result Database.db :=
  match update, widgetId st with
  | fails _, _ => Raise save_failed
  | runs, None => Raise save_failed
  | runs, Some i =>
      Ok (Database.mk_db
            (map (fun w =>
                    if (widgets.id w =? i)%nat
                       && update_widget_allowed (Database.role e) w
                    then widgets.mk (widgets.id w) (widgets.user_id w)
                           (Some (primaryColor st)) (Some (headerText st))
                           (Some (welcomeMessage st)) (Some (logoUrl st))
                           (widgets.created_at w) (Database.now e)
                    else w)
                 (Database.tbl_widgets d))
            (Database.tbl_auto_replies d) (Database.tbl_chats d)
            (Database.tbl_chat_messages d) (Database.next_uuid d))
  end.

(** What the chat widget shows for the values of the page. *)
Definition shown (st : page) : Widget.settings :=
  Widget.mk_settings
    (if truthy (primaryColor st) then primaryColor st else "#0284c7")
    (if truthy (headerText st) then headerText st else "Chat with us")
    (if truthy (welcomeMessage st) then welcomeMessage st
     else "Hello! How can we help you today?")
    (if truthy (logoUrl st) then Some (logoUrl st) else None).

(** The widgets a user owns. *)
Definition owned (d : Database.db) (user : uuid) : list widgets.row :=
  filter (fun w => widgets.user_id w =? user)%nat (Database.tbl_widgets d).

End WidgetSettingsPage.

(** ** The chat page of the dashboard, [ChatTab] *)

Module ChatTabPage.

(** A [postgres_changes] payload. *)
Inductive change (A : Type) :=
| INSERT (new : A)
| UPDATE (new : A)
| DELETE (old : uuid).
Arguments INSERT {A} new.
Arguments UPDATE {A} new.
Arguments DELETE {A} old.

(** The updater the callback of [subscribeToMessages] passes to
    [setMessages]. *)
Definition on_messages_change (messages : list chat_messages.row)
    (payload : change chat_messages.row) : list chat_messages.row :=
  match payload with
  | INSERT new => (messages ++ [new])%list
  | UPDATE new =>
      map (fun message =>
             if (chat_messages.id message =? chat_messages.id new)%nat then new
             else message)
          messages
  | DELETE _ => messages
  end.

(** The updater the callback of [subscribeToChats] passes to [setChats]. *)
Definition on_chats_change (chats : list chats.row) (payload : change chats.row)
  : list chats.row :=
  match payload with
  | INSERT new => new :: chats
  | UPDATE new =>
      map (fun chat => if (chats.id chat =? chats.id new)%nat then new else chat) chats
  | DELETE old => filter (fun chat => negb (chats.id chat =? old)%nat) chats
  end.

(** How often a row with the given id is in the list. *)
Definition copies (x : uuid) (messages : list chat_messages.row) : nat :=
  List.length (filter (fun m => (chat_messages.id m =? x)%nat) messages).

(** The insert events for the row with the given id among the payloads. *)
Definition inserts_of (x : uuid) (payloads : list (change chat_messages.row)) : nat :=
  List.length
    (filter (fun p => match p with
                      | INSERT new => (chat_messages.id new =? x)%nat
                      | _ => false
                      end)
            payloads).

End ChatTabPage.

(** ** The script tags: the loader and the start of [chat.js] *)

Module Embed.
Import Text.

(** An element of the page, as far as the scripts look at it. *)
Record element := mk_element {
  attr_id : option string;
  data_uid : option string;
  src : option string
}.

Definition WIDGET_URL : string := "https://your-domain.com/chat.js".

(** [document.getElementById], on the elements in document order. *)
Definition getElementById (document : list element) (i : string) : option element :=
  find (fun el => match attr_id el with
                  | Some j => String.eqb j i
                  | None => false
                  end) document.

(** The loader: [currentScript] is [document.currentScript], the scripts
    of the page are among [document].  It gives the page with the new
    script appended to the body, or the page as it is. *)
Definition loader (document : list element) (currentScript : element) : list element :=
  match data_uid currentScript with
  | Some widgetId =>
      if truthy widgetId then
        (document ++ [mk_element (Some "business-chat-widget") (Some widgetId)
                        (Some WIDGET_URL)])%list
      else document
  | None => document
  end.

(** The function [chat.js] runs when loaded: the [uid] the plugin is
    constructed with, or the error logged. *)
Definition start (document : list element) : result string :=
  match getElementById document "business-chat-widget" with
  | None =>
      Raise "BusinessChatPlugin: Widget script element not found or missing id"
  | Some scriptElement =>
      match data_uid scriptElement with
      | Some widgetId =>
          if truthy widgetId then Ok widgetId
          else Raise "BusinessChatPlugin: Missing data-uid attribute on script tag"
      | None => Raise "BusinessChatPlugin: Missing data-uid attribute on script tag"
      end
  end.

(** The tag the settings page offers for copying, as an element. *)
Definition scriptCode (origin widgetId : string) : element :=
  mk_element (Some "business-chat-widget") (Some widgetId) (Some (origin ++ "/chat.js")).

End Embed.

(** ** The session of a widget *)

Module Session.
Import Text Widget.

Definition stored_count (ls : localStorage) : nat :=
  match businessChatCount ls with Some n => n | None => 0 end.

(** The widget a reload of the page starts with: a new plugin on the same
    [localStorage], after [loadChatHistory]. *)
Definition reload (p : plugin) : plugin :=
  loadChatHistory (constructor (widgetId p) (storage p)).

(** What [localStorage] holds is what the widget holds. *)
Definition saved (p : plugin) : Prop :=
  name (info p) = businessChatName (storage p) /\
  email (info p) = businessChatEmail (storage p) /\
  chatCount (info p) = stored_count (storage p) /\
  (forall c, businessChatId (storage p) = Some c -> chatId p = Some c).

(** A write request as the widget is meant to send it: a message is never
    flagged as auto-reply, its sender is the visitor or the business, and
    a visitor's text is not blank. *)
Definition plain (r : request) : Prop :=
  match r with
  | insert_chat_messages _ _ c s a =>
      a = false /\
      (s = "business" \/ (s = "visitor" /\ truthy c = true /\ trim c = c))
  | _ => True
  end.

End Session.

(** ** What an operation leaves of a chat *)

Module Frame.

(** The second row is the first but for [updated_at]. *)
Definition kept (c c' : chats.row) : Prop :=
  chats.id c' = chats.id c /\
  chats.widget_id c' = chats.widget_id c /\
  chats.visitor_name c' = chats.visitor_name c /\
  chats.visitor_email c' = chats.visitor_email c /\
  chats.visitor_page c' = chats.visitor_page c /\
  chats.created_at c' = chats.created_at c.

(** The same, and a row of another chat than [chat] is not changed. *)
Definition kept_outside (chat : uuid) (c c' : chats.row) : Prop :=
  kept c c' /\ (chats.id c <> chat -> c' = c).

End Frame.

(** ** More sample data *)

Module MoreSamples.

(** Two lines of a text file. *)
Definition line (a b : string) : string := a ++ String Js.newline b.

(** A file with a header in capitals, a rule, an empty line, a rule with
    white space around its fields, and a line without keyword. *)
Definition rules_csv : string :=
  line "Keyword,Response"
    (line "pricing,From 19 a month"
       (line ""
          (line " hours , 9-5 EST " ",no keyword"))).

(** The settings page with a colour and a welcome message, and the
    header text and the logo left empty. *)
Definition red_page : WidgetSettingsPage.page :=
  WidgetSettingsPage.mk_page (Some 1) "#ff0000" "" "Welcome" "".

(** The tag of a host page that loads the loader. *)
Definition loader_tag : Embed.element :=
  Embed.mk_element None (Some "w-1") (Some "https://your-domain.com/loader.js").

Definition reply_row : chat_messages.row :=
  chat_messages.mk 11 1 1 "9-5 EST" "business" true (Some "hours") 1000%Z.

Definition question_row : chat_messages.row :=
  chat_messages.mk 10 1 1 "what are your hours?" "visitor" false None 1000%Z.

(** A transaction of user 8, signed in, who has no widget yet. *)
Definition signed_in_8 : Database.env :=
  Database.mk_env 1000%Z (fun _ => false) (Database.authenticated 8).

(** The offline widget showing the identification form after six
    messages. *)
Definition prompted_widget : Widget.plugin :=
  Widget.run_events Sample.offline_widget (Sample.six_messages ++ [Widget.ev_timeout]).

End MoreSamples.

(* ================================================================== *)
(** * Part II: properties *)
(* ================================================================== *)

(** ** Facts about the string functions *)

Section TextFacts.
Import Text.

Lemma prefix_iff_append (a s : string) :
  String.prefix a s = true <-> exists post, s = a ++ post.
Proof.
  revert s; induction a as [|c a IH]; intros s.
  - split; [intros _; exists s; reflexivity | intros _; destruct s; reflexivity].
  - destruct s as [|c' s]; simpl.
    + split; [discriminate | intros [post H]; discriminate].
    + destruct (Ascii.ascii_dec c c') as [->|Hne].
      * rewrite IH. split; intros [post H]; exists post.
        -- now rewrite H.
        -- now inversion H.
      * split; [discriminate | intros [post H]; injection H as E1 E2; congruence].
Qed.

Lemma position_unfold (sub s : string) :
  position sub s =
  if String.prefix sub s then 1
  else match s with
       | EmptyString => 0
       | String _ s' => match position sub s' with 0 => 0 | S k => S (S k) end
       end.
Proof. destruct s; reflexivity. Qed.

Lemma position_found (sub s : string) :
  0 < position sub s <-> substring_of sub s.
Proof.
  split.
  - induction s as [|c s IH]; rewrite position_unfold;
      destruct (String.prefix sub _) eqn:P;
      try (intros _; apply prefix_iff_append in P as [post P];
           exists "", post; exact P).
    + lia.
    + destruct (position sub s) as [|k]; [lia|].
      intros _. destruct IH as (pre & post & E); [lia|].
      exists (String c pre), post. simpl. now rewrite E.
  - intros (pre & post & E). subst s.
    induction pre as [|c pre IH]; rewrite position_unfold.
    + assert (P : String.prefix sub ("" ++ sub ++ post) = true)
        by (apply prefix_iff_append; exists post; reflexivity).
      rewrite P; lia.
    + destruct (String.prefix sub _); [lia|].
      simpl. destruct (position sub (pre ++ sub ++ post)); lia.
Qed.

Lemma position_in_empty (sub : string) :
  0 < position sub "" -> sub = "".
Proof.
  destruct sub; simpl; [reflexivity | lia].
Qed.

Lemma lower_empty (s : string) : lower s = "" -> s = "".
Proof. destruct s; [reflexivity | discriminate]. Qed.

Lemma lower_length (s : string) : String.length (lower s) = String.length s.
Proof. induction s; simpl; congruence. Qed.

Lemma trim_end_no_space (c : ascii) (s : string) :
  trim_end s = String c "" -> is_space c = false.
Proof.
  revert c; induction s as [|a s IH]; intros c; simpl; [discriminate|].
  destruct (trim_end s) as [|b t] eqn:E.
  - destruct (is_space a) eqn:Sa; [discriminate|].
    intros H; inversion H; subst; exact Sa.
  - intros H; inversion H.
Qed.

End TextFacts.

(** ** Facts about the matching query *)

Section MatcherFacts.
Import Text Matcher.

Local Abbreviation len r := (String.length (auto_replies.keyword r)).

Lemma contains_keyword_spec content r :
  contains_keyword content r = true <-> contained content r.
Proof.
  unfold contains_keyword, contained.
  rewrite Nat.ltb_lt. apply position_found.
Qed.

Lemma insert_desc_in r l x : In x (insert_desc r l) <-> x = r \/ In x l.
Proof.
  induction l as [|a l IH]; simpl.
  - intuition.
  - destruct (len a <=? len r)%nat; simpl; [intuition|].
    rewrite IH. intuition.
Qed.

Lemma order_by_in l x : In x (order_by_length_desc l) <-> In x l.
Proof.
  induction l as [|a l IH]; simpl; [tauto|].
  rewrite insert_desc_in, IH. intuition.
Qed.

(** The first row of the sorted rows is the first row, in scan order,
    that no row is longer than. *)
Lemma order_by_head l :
  match order_by_length_desc l with
  | [] => l = []
  | h :: _ => exists l1 l2, l = (l1 ++ h :: l2)%list /\
                (forall x, In x l1 -> len x < len h) /\
                (forall x, In x l2 -> len x <= len h)
  end.
Proof.
  induction l as [|a l IH]; simpl; [reflexivity|].
  destruct (order_by_length_desc l) as [|h t]; simpl.
  - subst l. exists [], []. simpl. intuition.
  - destruct IH as (l1 & l2 & E & H1 & H2).
    destruct (len h <=? len a)%nat eqn:C.
    + apply Nat.leb_le in C. exists [], l. simpl. split; [reflexivity|].
      split; [intros x []|]. intros x Hx. subst l.
      apply in_app_or in Hx as [Hx|[<-|Hx]].
      * apply H1 in Hx. lia.
      * exact C.
      * apply H2 in Hx. lia.
    + apply Nat.leb_gt in C. exists (a :: l1), l2. subst l. simpl.
      split; [reflexivity|]. split; [|exact H2].
      intros x [<-|Hx]; [exact C | now apply H1].
Qed.

Lemma limit_1_head (l : list auto_replies.row) : limit_1_into l = hd_error l.
Proof. destruct l; reflexivity. Qed.

(** The matcher returns the first row, in scan order, among the rows
    with a contained keyword of greatest length. *)
Lemma match_rule_first content rules w :
  match_rule content rules = Some w ->
  exists l1 l2, filter (contains_keyword content) rules = (l1 ++ w :: l2)%list /\
    (forall x, In x l1 -> len x < len w) /\
    (forall x, In x l2 -> len x <= len w).
Proof.
  unfold match_rule. rewrite limit_1_head.
  pose proof (order_by_head (filter (contains_keyword content) rules)) as H.
  destruct (order_by_length_desc _) as [|h t]; simpl; [discriminate|].
  intros E; inversion E; subst; exact H.
Qed.

Lemma match_rule_best content rules w :
  match_rule content rules = Some w -> best content rules w.
Proof.
  intros H. destruct (match_rule_first _ _ _ H) as (l1 & l2 & E & H1 & H2).
  assert (Hw : In w (filter (contains_keyword content) rules))
    by (rewrite E; apply in_or_app; right; left; reflexivity).
  apply filter_In in Hw as [Hin Hc].
  repeat split; [exact Hin | now apply contains_keyword_spec |].
  intros r Hr Hcr. apply contains_keyword_spec in Hcr.
  assert (Hf : In r (filter (contains_keyword content) rules))
    by (apply filter_In; auto).
  rewrite E in Hf. apply in_app_or in Hf as [Hf|[<-|Hf]].
  - apply H1 in Hf; lia.
  - lia.
  - now apply H2.
Qed.

Lemma match_rule_some content rules r :
  In r rules -> contained content r ->
  exists w, match_rule content rules = Some w.
Proof.
  intros Hin Hc. apply contains_keyword_spec in Hc.
  unfold match_rule. rewrite limit_1_head.
  pose proof (order_by_head (filter (contains_keyword content) rules)) as H.
  destruct (order_by_length_desc _) as [|h t]; simpl; [|eauto].
  assert (Hf : In r (filter (contains_keyword content) rules))
    by (apply filter_In; auto).
  rewrite H in Hf. destruct Hf.
Qed.

Lemma best_permutation content l1 l2 w :
  Permutation l1 l2 -> best content l1 w -> best content l2 w.
Proof.
  intros P (Hin & Hc & Hmax). repeat split.
  - eapply Permutation_in; eauto.
  - exact Hc.
  - intros r Hr. apply Hmax. eapply Permutation_in; [symmetry|]; eauto.
Qed.

End MatcherFacts.

(** ** The matcher *)

Section MatcherTheorems.
Import Text Matcher.

(** C1. Whatever rule [match_rule] returns for a message text is one of
    the given rules and its keyword, lower-cased, is a substring of the
    text, lower-cased.  For the empty text only a rule with the empty
    keyword could be returned, so no rule is returned, the rules having
    keywords that are not empty, as every rule the dashboard stores has;
    for no rules no rule is returned.  [match_rule] is a total function:
    it raises nothing. *)
Theorem match_only_contained_keywords :
  forall (M : string) (R : list auto_replies.row),
    (forall r, match_rule M R = Some r ->
       In r R /\
       substring_of (lower (auto_replies.keyword r)) (lower M)) /\
    (forall r, match_rule "" R = Some r -> auto_replies.keyword r = "") /\
    ((forall r, In r R -> auto_replies.keyword r <> "") ->
       match_rule "" R = None) /\
    match_rule M [] = None.
Proof.
  intros M R.
  assert (Hempty : forall r, match_rule "" R = Some r ->
                             In r R /\ auto_replies.keyword r = "").
  { intros w E. apply match_rule_best in E as (Hin & Hc & _).
    apply contains_keyword_spec in Hc. unfold contains_keyword in Hc.
    apply Nat.ltb_lt in Hc. simpl lower in Hc.
    apply position_in_empty, lower_empty in Hc. now split. }
  split; [|split; [|split]].
  - intros r H. apply match_rule_best in H as (Hin & Hc & _). now split.
  - intros r H. now apply Hempty in H.
  - intros Hne. destruct (match_rule "" R) as [w|] eqn:E; [|reflexivity].
    destruct (Hempty w eq_refl) as [Hin Hk]. now apply Hne in Hin.
  - reflexivity.
Qed.

(** The spec's case without a match. *)
Example no_match_xyz :
  forall (i j u wd : uuid) (a b : string) (s t : timestamptz),
    match_rule "xyz" [auto_replies.mk i u wd "pricing" a s;
                      auto_replies.mk j u wd "contact" b t] = None.
Proof. reflexivity. Qed.

(** C2. When the keyword of some rule is contained in the message text,
    [match_rule] returns a rule, and the rule returned has a contained
    keyword of greatest length among the rules whose keyword is
    contained.  For the rules "hi" and "hi there" and the text
    "hi there friend" it is the rule "hi there", in whichever order the
    two rules are stored. *)
Theorem longest_keyword_wins :
  (forall (M : string) (R : list auto_replies.row),
     (exists r, In r R /\ contained M r) ->
     exists w, match_rule M R = Some w /\ In w R /\ contained M w /\
       forall r, In r R -> contained M r ->
         String.length (auto_replies.keyword r)
         <= String.length (auto_replies.keyword w)) /\
  (forall (idA idB u wd : uuid) (A B : string) (tA tB : timestamptz),
     let hi := auto_replies.mk idA u wd "hi" A tA in
     let hi_there := auto_replies.mk idB u wd "hi there" B tB in
     match_rule "hi there friend" [hi; hi_there] = Some hi_there /\
     match_rule "hi there friend" [hi_there; hi] = Some hi_there).
Proof.
  split.
  - intros M R (r & Hin & Hc).
    destruct (match_rule_some _ _ _ Hin Hc) as [w Hw].
    exists w. split; [exact Hw|]. apply match_rule_best in Hw. exact Hw.
  - intros. split; reflexivity.
Qed.

End MatcherTheorems.

(** ** Facts about the trigger *)

Section DatabaseFacts.
Import Database.

Lemma handle_auto_reply_other_sender INSERT e d NEW :
  chat_messages.sender_type NEW <> "visitor" ->
  handle_auto_reply INSERT e d NEW = Ok d.
Proof.
  intros H. unfold handle_auto_reply.
  apply String.eqb_neq in H. now rewrite H.
Qed.

Lemma insert_other_sender k e d v :
  create_message_allowed (role e) = true ->
  references_ok d v ->
  chat_messages.v_sender_type v <> "visitor" ->
  insert_chat_message (S k) e d v = Ok (store_row e d v).
Proof.
  intros Hp [Hc Hw] Hs. simpl. rewrite Hp, Hc, Hw. simpl.
  now apply handle_auto_reply_other_sender.
Qed.

Lemma references_ok_store e d v v' :
  references_ok d v' -> references_ok (store_row e d v) v'.
Proof. intros H; exact H. Qed.

Lemma insert_unfold k e d v :
  insert_chat_message (S k) e d v =
  if negb (create_message_allowed (role e)) then
    Raise "new row violates row-level security policy for table chat_messages"
  else if negb (references_chat d (chat_messages.v_chat_id v)) then
    Raise "violates foreign key constraint on chat_id"
  else if negb (references_widget d (chat_messages.v_widget_id v)) then
    Raise "violates foreign key constraint on widget_id"
  else handle_auto_reply (insert_chat_message k) e (store_row e d v) (new_row e d v).
Proof. reflexivity. Qed.

(** A role that may not create messages is refused, whatever it inserts. *)
Lemma insert_refused k e d v :
  create_message_allowed (role e) = false ->
  insert_chat_message (S k) e d v =
  Raise "new row violates row-level security policy for table chat_messages".
Proof. intros Hp. rewrite insert_unfold, Hp. reflexivity. Qed.

(** Two levels of nesting are all the trigger uses: the insert it runs
    itself only stores its row. *)
Lemma insert_two_levels k e d v :
  create_message_allowed (role e) = true ->
  references_ok d v ->
  insert_chat_message (S (S k)) e d v =
  handle_auto_reply (fun e' d' v' => Ok (store_row e' d' v')) e
    (store_row e d v) (new_row e d v).
Proof.
  intros Hp Hr. pose proof Hr as [Hc Hw].
  rewrite insert_unfold, Hp, Hc, Hw. simpl negb. cbv iota.
  unfold handle_auto_reply.
  destruct (String.eqb _ "visitor"); [|reflexivity].
  destruct (run e select_widget_owner _ _); cbn [bind]; [|reflexivity].
  destruct (run e select_matching_reply _ _) as [[reply|]|]; cbn [bind];
    try reflexivity.
  destruct (run e insert_auto_reply _ _); cbn [bind]; [|reflexivity].
  rewrite insert_other_sender; [reflexivity | exact Hp | exact Hr | discriminate].
Qed.

Lemma insert_without_reference depth e d v d' :
  insert_chat_message depth e d v = Ok d' ->
  create_message_allowed (role e) = true /\ references_ok d v.
Proof.
  destruct depth; [discriminate|]. rewrite insert_unfold.
  unfold references_ok.
  destruct (create_message_allowed (role e)); simpl; [|discriminate].
  destruct (references_chat d _); simpl; [|discriminate].
  destruct (references_widget d _); simpl; [|discriminate].
  auto.
Qed.

(** The two results an insert can have. *)
Lemma insert_result k e d v d' :
  insert_chat_message (S (S k)) e d v = Ok d' ->
  (d' = store_row e d v /\
   (chat_messages.v_sender_type v <> "visitor" \/
    matching_reply e (store_row e d v) (new_row e d v) = None)) \/
  (exists reply,
     chat_messages.v_sender_type v = "visitor" /\
     matching_reply e (store_row e d v) (new_row e d v) = Some reply /\
     d' = update_chat_of e (chat_messages.v_chat_id v)
            (store_row e (store_row e d v) (auto_reply_values (new_row e d v) reply))).
Proof.
  intros H. pose proof (insert_without_reference _ _ _ _ _ H) as [Hp Hr].
  rewrite insert_two_levels in H by assumption.
  unfold handle_auto_reply in H. simpl chat_messages.sender_type in H.
  destruct (String.eqb (chat_messages.v_sender_type v) "visitor") eqn:S.
  - apply String.eqb_eq in S. unfold run in H.
    destruct (raises e select_widget_owner); simpl in H; [discriminate|].
    destruct (raises e select_matching_reply); simpl in H; [discriminate|].
    destruct (matching_reply _ _ _) as [reply|] eqn:M.
    + destruct (raises e insert_auto_reply); simpl in H; [discriminate|].
      destruct (raises e update_chat); simpl in H; [discriminate|].
      right. exists reply. inversion H. auto.
    + left. inversion H. auto.
  - apply String.eqb_neq in S. left. inversion H. auto.
Qed.

(** With the store available the insert of a row with valid references
    succeeds, and its result is the following. *)
Lemma insert_available k e d v :
  available e -> references_ok d v ->
  insert_chat_message (S (S k)) e d v =
  Ok (if String.eqb (chat_messages.v_sender_type v) "visitor" then
        match matching_reply e (store_row e d v) (new_row e d v) with
        | Some reply =>
            update_chat_of e (chat_messages.v_chat_id v)
              (store_row e (store_row e d v) (auto_reply_values (new_row e d v) reply))
        | None => store_row e d v
        end
      else store_row e d v).
Proof.
  intros [Hp Ha] Hr. rewrite insert_two_levels by assumption.
  unfold handle_auto_reply, run. simpl chat_messages.sender_type.
  destruct (String.eqb _ "visitor"); [|reflexivity].
  rewrite ?Ha. cbn [bind].
  destruct (matching_reply _ _ _); cbn [bind]; [|reflexivity].
  rewrite ?Ha. reflexivity.
Qed.

(** The query of the trigger is the matcher on the rules of the widget
    that the role can view. *)
Lemma matching_reply_match_rule e d NEW :
  matching_reply e d NEW =
  Matcher.match_rule (chat_messages.content NEW)
    (visible_rules e d (chat_messages.widget_id NEW)).
Proof.
  unfold matching_reply, Matcher.match_rule, visible_rules, rules_of. f_equal. f_equal.
  induction (tbl_auto_replies d) as [|r l IH]; simpl; [reflexivity|].
  destruct (view_auto_reply (role e) r) eqn:V;
    destruct (auto_replies.widget_id r =? _)%nat eqn:W; simpl;
    rewrite ?V, ?W; simpl; try exact IH.
  destruct (Matcher.contains_keyword _ r); now rewrite IH.
Qed.

(** A role that views every rule of the widget reads all its rules. *)
Lemma visible_rules_all e d w :
  (forall r, In r (rules_of d w) -> view_auto_reply (role e) r = true) ->
  visible_rules e d w = rules_of d w.
Proof.
  unfold visible_rules. induction (rules_of d w) as [|r l IH]; intros H; simpl;
    [reflexivity|].
  rewrite (H r (or_introl eq_refl)). f_equal. apply IH.
  intros x Hx. apply H. now right.
Qed.

(** A role that views no rule of the widget reads none. *)
Lemma visible_rules_none e d w :
  (forall r, In r (rules_of d w) -> view_auto_reply (role e) r = false) ->
  visible_rules e d w = [].
Proof.
  unfold visible_rules. induction (rules_of d w) as [|r l IH]; intros H; simpl;
    [reflexivity|].
  rewrite (H r (or_introl eq_refl)). apply IH.
  intros x Hx. apply H. now right.
Qed.

(** Without a matching rule among all there is none among some. *)
Lemma match_rule_none_filter M (f : auto_replies.row -> bool) R :
  Matcher.match_rule M R = None -> Matcher.match_rule M (filter f R) = None.
Proof.
  intros H. destruct (Matcher.match_rule M (filter f R)) as [w|] eqn:E; [|reflexivity].
  apply match_rule_best in E as (Hin & Hc & _).
  apply filter_In in Hin as [Hin _].
  destruct (match_rule_some M R w Hin Hc) as [w' E']. congruence.
Qed.

Lemma insert_keeps_rules depth e d v d' :
  insert_chat_message depth e d v = Ok d' ->
  tbl_auto_replies d' = tbl_auto_replies d /\ tbl_widgets d' = tbl_widgets d.
Proof.
  revert e d v d'. induction depth as [|depth IH]; intros e d v d'; simpl; [discriminate|].
  destruct (negb (create_message_allowed (role e))); [discriminate|].
  destruct (negb (references_chat d _)); [discriminate|].
  destruct (negb (references_widget d _)); [discriminate|].
  unfold handle_auto_reply, run.
  destruct (String.eqb _ "visitor"); [|intros H; inversion H; auto].
  destruct (raises e select_widget_owner); simpl; [discriminate|].
  destruct (raises e select_matching_reply); simpl; [discriminate|].
  destruct (matching_reply _ _ _); simpl; [|intros H; inversion H; auto].
  destruct (raises e insert_auto_reply); simpl; [discriminate|].
  destruct (insert_chat_message depth e _ _) as [d1|] eqn:I; simpl; [|discriminate].
  destruct (raises e update_chat); simpl; [discriminate|].
  intros H; inversion H; subst. apply IH in I. simpl in *. exact I.
Qed.

End DatabaseFacts.

(** ** The dispatcher *)

Section DispatcherTheorems.
Import Database.

Lemma insert_depth_irrelevant k e d v :
  insert_chat_message (S (S k)) e d v = insert_chat_message 2 e d v.
Proof.
  destruct (create_message_allowed (role e)) eqn:Hp.
  - destruct (references_chat d (chat_messages.v_chat_id v)) eqn:Hc.
    + destruct (references_widget d (chat_messages.v_widget_id v)) eqn:Hw.
      * rewrite !insert_two_levels by (try split; assumption). reflexivity.
      * rewrite !insert_unfold, Hp, Hc, Hw. reflexivity.
    + rewrite !insert_unfold, Hp, Hc. reflexivity.
  - rewrite !insert_refused by exact Hp. reflexivity.
Qed.

(** C3. An insert into [chat_messages] adds the inserted row and at most
    one further row, which is then an auto-reply sent by the business; a
    row whose sender is not the visitor, as every auto-reply the trigger
    inserts, adds no further row, and the trigger function returns for it
    without running a statement.  The nesting of trigger calls never goes
    beyond two, whatever depth is allowed; with the store available and
    the references valid the insert succeeds. *)
Theorem at_most_one_auto_reply :
  forall (k : nat) (e : env) (d : db) (v : chat_messages.values),
    insert_chat_message (S (S k)) e d v = insert_chat_message 2 e d v /\
    (available e -> references_ok d v ->
       exists d', insert_chat_message (S (S k)) e d v = Ok d') /\
    (forall d', insert_chat_message (S (S k)) e d v = Ok d' ->
       exists replies,
         tbl_chat_messages d' = (tbl_chat_messages d ++ new_row e d v :: replies)%list /\
         List.length replies <= 1 /\
         (forall m, In m replies ->
            chat_messages.sender_type m = "business" /\
            chat_messages.is_auto_reply m = true /\
            forall INSERT e' d'', handle_auto_reply INSERT e' d'' m = Ok d'') /\
         (chat_messages.v_sender_type v <> "visitor" -> replies = [])) /\
    (forall INSERT NEW,
       chat_messages.sender_type NEW <> "visitor" ->
       handle_auto_reply INSERT e d NEW = Ok d).
Proof.
  intros k e d v. split; [apply insert_depth_irrelevant|]. split; [|split].
  - intros Ha Hr. rewrite insert_available by assumption. eauto.
  - intros d' H. apply insert_result in H as [[-> Hcase]|(reply & Hs & Hm & ->)].
    + exists []. simpl. split; [reflexivity|]. split; [lia|].
      split; [intros m []|reflexivity].
    + exists [new_row e (store_row e d v) (auto_reply_values (new_row e d v) reply)].
      simpl. rewrite <- app_assoc. simpl. split; [reflexivity|]. split; [lia|].
      split; [|intros Hn; contradiction].
      intros m [<-|[]]. split; [reflexivity|]. split; [reflexivity|].
      intros. apply handle_auto_reply_other_sender. simpl. discriminate.
  - intros. now apply handle_auto_reply_other_sender.
Qed.

Lemma references_chat_in d c :
  references_chat d c = true -> exists r, In r (tbl_chats d) /\ chats.id r = c.
Proof.
  unfold references_chat. rewrite existsb_exists.
  intros (r & Hin & E). apply Nat.eqb_eq in E. eauto.
Qed.

(** C4, at the message "what are your hours?" of a visitor, in a chat
    of a widget whose rule "hours" the matcher returns for this text.
    Inserted by a signed-in user who does not own the rule, the message
    is stored alone: the trigger's query, run as that user, views no
    rule, so no auto-reply is stored and the chat keeps its [updated_at].
    Inserted without sign-in, as the chat widget does, the message is
    refused.  Only when the owner of the rule and of the widget inserts
    it does the trigger store the auto-reply. *)
Theorem visitor_message_gets_no_auto_reply :
  let v := Sample.hours_question in
  let d := Sample.shop in
  (references_ok d v /\ chat_messages.v_sender_type v = "visitor" /\
   Matcher.match_rule (chat_messages.v_content v)
     (rules_of d (chat_messages.v_widget_id v)) = Some Sample.rule_hours) /\
  (available Sample.visitor_9 /\
   insert_chat_message max_depth Sample.visitor_9 d v
   = Ok (mk_db [Sample.widget_1] [Sample.rule_hours] [Sample.chat_1]
           [chat_messages.mk 10 1 1 "what are your hours?" "visitor" false None 1000%Z]
           11)) /\
  insert_chat_message max_depth Sample.not_signed_in d v
  = Raise "new row violates row-level security policy for table chat_messages" /\
  insert_chat_message max_depth Sample.fine d v
  = Ok (mk_db [Sample.widget_1] [Sample.rule_hours]
          [chats.mk 1 1 None None None 0%Z 1000%Z]
          [chat_messages.mk 10 1 1 "what are your hours?" "visitor" false None 1000%Z;
           chat_messages.mk 11 1 1 "9-5 EST" "business" true (Some "hours") 1000%Z]
          12).
Proof.
  cbv zeta. split; [|split; [|split]].
  - split; [split; reflexivity|]. split; reflexivity.
  - split; [split; [reflexivity | intros s; reflexivity] | reflexivity].
  - reflexivity.
  - reflexivity.
Qed.

(** C5, as the code has it.  For the rows in a given scan order the query
    returns exactly one rule whenever a keyword is contained: the
    first-scanned one among the rules with a contained keyword of greatest
    length.  When only one rule is best the result is the same for every
    scan order of the same rules.  An insert into [chat_messages], with
    the trigger it fires, leaves the rules as they are, so the matcher
    returns afterwards what it returned before. *)
Theorem match_is_first_best_in_scan_order :
  (forall (M : string) (R : list auto_replies.row),
     (exists r, In r R /\ Matcher.contained M r) ->
     exists w l1 l2,
       Matcher.match_rule M R = Some w /\
       filter (Matcher.contains_keyword M) R = (l1 ++ w :: l2)%list /\
       (forall x, In x l1 ->
          String.length (auto_replies.keyword x) < String.length (auto_replies.keyword w)) /\
       (forall x, In x l2 ->
          String.length (auto_replies.keyword x) <= String.length (auto_replies.keyword w))) /\
  (forall (M : string) (R1 R2 : list auto_replies.row),
     Permutation R1 R2 ->
     (forall a b, Matcher.best M R1 a -> Matcher.best M R1 b -> a = b) ->
     Matcher.match_rule M R1 = Matcher.match_rule M R2) /\
  (forall (depth : nat) (e : env) (d d' : db) (v : chat_messages.values),
     insert_chat_message depth e d v = Ok d' ->
     forall (M : string) (w : uuid),
       Matcher.match_rule M (rules_of d' w) = Matcher.match_rule M (rules_of d w)).
Proof.
  split; [|split].
  - intros M R (r & Hin & Hc).
    destruct (match_rule_some _ _ _ Hin Hc) as [w Hw].
    destruct (match_rule_first _ _ _ Hw) as (l1 & l2 & H).
    exists w, l1, l2. split; [exact Hw | exact H].
  - intros M R1 R2 P Huniq.
    destruct (Matcher.match_rule M R1) as [w1|] eqn:E1.
    + pose proof (match_rule_best _ _ _ E1) as B1.
      destruct B1 as (Hin1 & Hc1 & Hmax1).
      destruct (match_rule_some M R2 w1) as [w2 E2];
        [eapply Permutation_in; eauto | exact Hc1 |].
      rewrite E2. f_equal. apply Huniq.
      * repeat split; assumption.
      * apply best_permutation with (l1 := R2); [now symmetry|].
        now apply match_rule_best.
    + destruct (Matcher.match_rule M R2) as [w2|] eqn:E2; [|reflexivity].
      apply match_rule_best in E2 as (Hin2 & Hc2 & _).
      destruct (match_rule_some M R1 w2) as [w1 E];
        [eapply Permutation_in; [symmetry|]; eauto | exact Hc2 |].
      congruence.
  - intros depth e d d' v H M w.
    apply insert_keeps_rules in H as [H _]. unfold rules_of. now rewrite H.
Qed.

Lemma values_invariant_insert k e d v d' :
  (chat_messages.v_auto_reply_keyword v <> None <->
   chat_messages.v_is_auto_reply v = true) ->
  Forall keyword_iff_auto_reply (tbl_chat_messages d) ->
  insert_chat_message (S (S k)) e d v = Ok d' ->
  Forall keyword_iff_auto_reply (tbl_chat_messages d').
Proof.
  intros Hv Hd H.
  apply insert_result in H as [[-> _]|(reply & _ & _ & ->)]; simpl.
  - apply Forall_app. split; [exact Hd|]. constructor; [exact Hv | constructor].
  - apply Forall_app. split.
    + apply Forall_app. split; [exact Hd|]. constructor; [exact Hv | constructor].
    + constructor; [|constructor]. unfold keyword_iff_auto_reply. simpl.
      split; [reflexivity | discriminate].
Qed.

Lemma perform_invariant e d op d' :
  Forall keyword_iff_auto_reply (tbl_chat_messages d) ->
  Operations.perform e d op = Ok d' ->
  Forall keyword_iff_auto_reply (tbl_chat_messages d').
Proof.
  assert (Hv : forall c w t, chat_messages.v_auto_reply_keyword
                               (chat_messages.mk_values c w t "business" false None) <> None <->
                             false = true)
    by (intros; simpl; split; [intros H; now contradiction H | discriminate]).
  intros Hd. destruct op; unfold Operations.perform;
    change max_depth with (S (S 98)).
  - destruct (negb _); [intros H; inversion H; subst; exact Hd|].
    apply values_invariant_insert; [|exact Hd].
    simpl. split; [intros H; now contradiction H | discriminate].
  - apply values_invariant_insert; [|exact Hd]. apply Hv.
  - destruct (negb _); [intros H; inversion H; subst; exact Hd|].
    destruct (insert_chat_message _ e d _) as [d1|] eqn:I; cbn [bind]; [|discriminate].
    intros H; inversion H; subst.
    change (tbl_chat_messages (update_chats_updated_at later date activeChat d1))
      with (tbl_chat_messages d1).
    revert I. apply values_invariant_insert; [|exact Hd]. apply Hv.
Qed.

(** C6. The rows of [chat_messages] all have a matched keyword exactly
    when they are auto-replies, after any history of the operations that
    create messages (the visitor's send and the welcome message of the
    widget, the agent's send of the dashboard, each with the auto-reply
    the trigger may add), if they had before; so they have in every
    database that started without messages. *)
Theorem matched_keyword_iff_auto_reply :
  forall (d : db) (ops : list (env * Operations.operation)),
    Forall keyword_iff_auto_reply (tbl_chat_messages d) ->
    Forall keyword_iff_auto_reply (tbl_chat_messages (Operations.perform_all d ops)).
Proof.
  intros d ops. revert d. induction ops as [|[e op] ops IH]; intros d Hd; simpl.
  - exact Hd.
  - apply IH. destruct (Operations.perform e d op) as [d'|] eqn:P; simpl.
    + eapply perform_invariant; eauto.
    + exact Hd.
Qed.

(** C7, as the code has it.  The trigger runs inside the insert of the
    visitor's message, as the role of that insert.  If the read of the
    widget or of the rules raises, or, a rule that the role can view
    being matched, the insert of the auto-reply or the update of the chat
    raises, the insert of the visitor's message raises too and the
    database stays as it was: the message is not stored.  With the store
    available the message is stored, and when no rule that the role can
    view matches, as when no rule of the widget matches at all, it is all
    that is stored.  A role that can view every rule of the widget, as
    their owner, reads them all. *)
Theorem dispatch_failure_aborts_insert :
  forall (k : nat) (e : env) (d : db) (v : chat_messages.values),
    references_ok d v ->
    chat_messages.v_sender_type v = "visitor" ->
    (raises e select_widget_owner = true \/ raises e select_matching_reply = true ->
       exists err, insert_chat_message (S (S k)) e d v = Raise err /\
                   commit d (insert_chat_message (S (S k)) e d v) = d) /\
    (Matcher.match_rule (chat_messages.v_content v)
       (visible_rules e d (chat_messages.v_widget_id v)) <> None ->
     raises e insert_auto_reply = true \/ raises e update_chat = true ->
       exists err, insert_chat_message (S (S k)) e d v = Raise err /\
                   commit d (insert_chat_message (S (S k)) e d v) = d) /\
    (available e ->
       exists d', insert_chat_message (S (S k)) e d v = Ok d' /\
                  In (new_row e d v) (tbl_chat_messages d') /\
                  (Matcher.match_rule (chat_messages.v_content v)
                     (rules_of d (chat_messages.v_widget_id v)) = None ->
                   d' = store_row e d v) /\
                  (Matcher.match_rule (chat_messages.v_content v)
                     (visible_rules e d (chat_messages.v_widget_id v)) = None ->
                   d' = store_row e d v)) /\
    ((forall r, In r (rules_of d (chat_messages.v_widget_id v)) ->
                view_auto_reply (role e) r = true) ->
     visible_rules e d (chat_messages.v_widget_id v)
     = rules_of d (chat_messages.v_widget_id v)).
Proof.
  intros k e d v Hr Hs.
  assert (Hm : matching_reply e (store_row e d v) (new_row e d v) =
               Matcher.match_rule (chat_messages.v_content v)
                 (visible_rules e d (chat_messages.v_widget_id v)))
    by (rewrite matching_reply_match_rule; reflexivity).
  assert (Hanon : create_message_allowed (role e) = false ->
                  exists err, insert_chat_message (S (S k)) e d v = Raise err /\
                              commit d (insert_chat_message (S (S k)) e d v) = d)
    by (intros Hp; rewrite insert_refused by exact Hp; eauto).
  split; [|split; [|split]]; [| | |apply visible_rules_all].
  - intros Hf. destruct (create_message_allowed (role e)) eqn:Hp; [|now apply Hanon].
    rewrite insert_two_levels by assumption.
    unfold handle_auto_reply, run. simpl chat_messages.sender_type.
    rewrite Hs. simpl String.eqb. cbv iota.
    destruct (raises e select_widget_owner); cbn [bind]; [eauto|].
    destruct Hf as [Hf|Hf]; [discriminate|]. rewrite Hf. cbn [bind]. eauto.
  - intros Hsome Hf.
    destruct (create_message_allowed (role e)) eqn:Hp; [|now apply Hanon].
    rewrite insert_two_levels by assumption.
    unfold handle_auto_reply, run. simpl chat_messages.sender_type.
    rewrite Hs. simpl String.eqb. cbv iota.
    destruct (raises e select_widget_owner); cbn [bind]; [eauto|].
    destruct (raises e select_matching_reply); cbn [bind]; [eauto|].
    rewrite Hm.
    destruct (Matcher.match_rule _ _) as [reply|]; [|contradiction].
    destruct (raises e insert_auto_reply); cbn [bind]; [eauto|].
    destruct Hf as [Hf|Hf]; [discriminate|]. rewrite Hf. cbn [bind]. eauto.
  - intros Ha. rewrite insert_available by assumption.
    rewrite Hs. simpl String.eqb. cbv iota. rewrite Hm.
    eexists. split; [reflexivity|].
    destruct (Matcher.match_rule _ (visible_rules _ _ _)) as [reply|] eqn:V; simpl.
    + split; [|split; [|discriminate]].
      * rewrite <- app_assoc. apply in_or_app. right. left. reflexivity.
      * intros Hall. apply (match_rule_none_filter _ (view_auto_reply (role e))) in Hall.
        unfold visible_rules in V. congruence.
    + split; [|split; reflexivity]. apply in_or_app. right. left. reflexivity.
Qed.

End DispatcherTheorems.

(** ** Facts about the widget *)

Section WidgetFacts.
Import Text Widget.

Lemma same_id_true a b : same_id a b = true <-> a = b.
Proof.
  destruct a, b; simpl; try (split; [discriminate | intros H; discriminate]).
  - rewrite Nat.eqb_eq. split; congruence.
  - tauto.
Qed.

Lemma count_id_app x l1 l2 :
  count_id x (l1 ++ l2) = count_id x l1 + count_id x l2.
Proof. unfold count_id. now rewrite filter_app, length_app. Qed.

Lemma count_id_absent x l :
  existsb (fun m => same_id (id m) (Some x)) l = false -> count_id x l = 0.
Proof.
  unfold count_id. induction l as [|m l IH]; simpl; [reflexivity|].
  destruct (same_id (id m) (Some x)); simpl; [discriminate | exact IH].
Qed.

(** One insert event: the message is appended, to the array and to the
    display, or nothing changes. *)
Lemma on_insert_step p (r : chat_messages.row) :
  exists added,
    (added = [] \/ added = [of_row r]) /\
    messages (on_insert p (of_row r)) = (messages p ++ added)%list /\
    messagesElement (on_insert p (of_row r))
    = (messagesElement p ++ map message_node added)%list /\
    (forall m, In m added -> sender_type m = "business") /\
    (forall x, count_id x (messages p ++ added) <= Nat.max 1 (count_id x (messages p))).
Proof.
  unfold on_insert.
  destruct (String.eqb (sender_type (of_row r)) "business") eqn:S; simpl andb.
  - destruct (existsb _ (messages p)) eqn:X; simpl negb; cbv iota.
    + exists []. rewrite !app_nil_r. split; [auto|]. do 2 (split; [reflexivity|]).
      split; [intros m [] | intros x; lia].
    + exists [of_row r]. split; [auto|]. split; [reflexivity|].
      split; [reflexivity|]. split.
      * intros m [<-|[]]. now apply String.eqb_eq.
      * intros x. rewrite count_id_app. unfold count_id at 2. cbn -[Nat.max].
        destruct (chat_messages.id r =? x)%nat eqn:E; cbn -[Nat.max]; [|lia].
        apply Nat.eqb_eq in E. subst x.
        rewrite (count_id_absent _ _ X). cbn -[Nat.max]. lia.
  - exists []. rewrite !app_nil_r. split; [auto|]. do 2 (split; [reflexivity|]).
    split; [intros m [] | intros x; lia].
Qed.

Lemma on_insert_events p (evs : list chat_messages.row) :
  exists added,
    messages (fold_left on_insert (map of_row evs) p) = (messages p ++ added)%list /\
    messagesElement (fold_left on_insert (map of_row evs) p)
    = (messagesElement p ++ map message_node added)%list /\
    (forall m, In m added ->
       sender_type m = "business" /\ exists r, In r evs /\ m = of_row r) /\
    (forall x, count_id x (messages p ++ added) <= Nat.max 1 (count_id x (messages p))).
Proof.
  revert p. induction evs as [|r evs IH]; intros p; cbn [fold_left map].
  - exists []. rewrite !app_nil_r. do 2 (split; [reflexivity|]).
    split; [intros m [] | intros x; lia].
  - destruct (on_insert_step p r) as (a1 & Ha & M1 & N1 & B1 & C1).
    destruct (IH (on_insert p (of_row r))) as (a2 & M2 & N2 & B2 & C2).
    exists (a1 ++ a2)%list. rewrite M2, N2, M1, N1, map_app, <- !app_assoc.
    split; [reflexivity|]. split; [reflexivity|]. split.
    + intros m Hm. apply in_app_or in Hm as [Hm|Hm].
      * split; [now apply B1|]. exists r. split; [now left|].
        destruct Ha as [->| ->]; [destruct Hm | destruct Hm as [<-|[]]; reflexivity].
      * destruct (B2 m Hm) as (Hb & r' & Hin & E). split; [exact Hb|].
        exists r'. split; [now right | exact E].
    + intros x. specialize (C1 x). specialize (C2 x).
      rewrite M1, <- app_assoc in C2. lia.
Qed.

Lemma forms_app ns ms :
  List.length (filter (fun n => is_form (Some n)) (ns ++ ms))
  = List.length (filter (fun n => is_form (Some n)) ns)
    + List.length (filter (fun n => is_form (Some n)) ms).
Proof. now rewrite filter_app, length_app. Qed.

Lemma addMessage_keeps p m :
  info (addMessage p m) = info p /\ timers (addMessage p m) = timers p /\
  forms (addMessage p m) = forms p /\ chatId (addMessage p m) = chatId p.
Proof.
  unfold forms, addMessage. simpl. rewrite forms_app. simpl. auto with arith.
Qed.

Lemma createChat_keeps p r w :
  info (createChat p r w) = info p /\ timers (createChat p r w) = timers p /\
  forms (createChat p r w) = forms p.
Proof.
  unfold forms, createChat.
  destruct (data_or_throw r); simpl; [|auto].
  destruct (messages p); simpl; [auto|].
  destruct (current_settings p); simpl; [|auto].
  destruct w; simpl; auto.
Qed.

Lemma toggleWidget_keeps p f date r w :
  info (toggleWidget p f date r w) = info p /\
  timers (toggleWidget p f date r w) = timers p /\
  forms (toggleWidget p f date r w) = forms p.
Proof.
  unfold toggleWidget.
  destruct (match f with Some b => b | None => negb (isOpen p) end); [|auto].
  simpl messages. destruct (messages p); [|auto].
  simpl current_settings. destruct (current_settings p) as [s|]; [|auto].
  set (q := addMessage _ _).
  assert (Hq : info q = info p /\ timers q = timers p /\ forms q = forms p)
    by (destruct (addMessage_keeps (set_flags p true (isInitialized p))
                    (mk_message None (welcomeMessage s) "business" false None date))
          as (H1 & H2 & H3 & _); auto).
  destruct (chatId q); [exact Hq|].
  destruct (createChat_keeps q r w) as (H1 & H2 & H3).
  destruct Hq as (Q1 & Q2 & Q3). rewrite H1, H2, H3. auto.
Qed.

Lemma fold_addMessage_keeps ms p :
  info (fold_left addMessage ms p) = info p /\
  timers (fold_left addMessage ms p) = timers p /\
  forms (fold_left addMessage ms p) = forms p.
Proof.
  revert p. induction ms as [|m ms IH]; intros p; simpl; [auto|].
  destruct (IH (addMessage p m)) as (H1 & H2 & H3).
  destruct (addMessage_keeps p m) as (A1 & A2 & A3 & _).
  rewrite H1, H2, H3. auto.
Qed.

Lemma on_history_keeps p r :
  info (on_history p r) = info p /\ timers (on_history p r) = timers p /\
  forms (on_history p r) <= forms p.
Proof.
  unfold on_history.
  destruct r as [[data|] [err|]|reason]; auto.
  - destruct (fold_addMessage_keeps (map of_row data) (set_messages p [] []))
      as (H1 & H2 & H3).
    rewrite H1, H2, H3. unfold forms. simpl. auto with arith.
  - unfold forms. simpl. auto with arith.
Qed.

Lemma on_insert_keeps p m :
  info (on_insert p m) = info p /\ timers (on_insert p m) = timers p /\
  forms (on_insert p m) = forms p.
Proof.
  unfold on_insert. destruct (_ && _); [|auto].
  destruct (addMessage_keeps p m) as (H1 & H2 & H3 & _). auto.
Qed.

(** The state in which [sendMessage] awaits the answer to its insert. *)
Lemma sendMessage_pending p value date r w :
  exists q,
    (forall ins, truthy (trim value) = true ->
       sendMessage p value date r w ins
       = try_catch (data <- data_or_throw ins ;;
                    Ok (after_insert q (List.length (messages q) - 1) data))
           (fun _ => q)) /\
    info q = info p /\ timers q = timers p /\ forms q = forms p.
Proof.
  set (p1 := match chatId p with None => createChat p r w | Some _ => p end).
  assert (H1 : info p1 = info p /\ timers p1 = timers p /\ forms p1 = forms p).
  { unfold p1. destruct (chatId p); [auto|]. apply createChat_keeps. }
  set (m := mk_message None (trim value) "visitor" false None date).
  exists (send (addMessage p1 m)
            (insert_chat_messages (chatId (addMessage p1 m)) (widgetId (addMessage p1 m))
               (trim value) "visitor" false)).
  split.
  - intros ins Ht. unfold sendMessage. rewrite Ht. simpl negb. cbv iota.
    fold p1. fold m.
    replace (List.length (messages (send (addMessage p1 m) _)) - 1)
      with (List.length (messages p1)); [reflexivity|].
    simpl. rewrite length_app. simpl. lia.
  - destruct (addMessage_keeps p1 m) as (A1 & A2 & A3 & _).
    destruct H1 as (B1 & B2 & B3).
    unfold forms in *. simpl in *. rewrite <- B1, <- B2, <- B3. auto.
Qed.

Lemma after_insert_effect q index data :
  name (info (after_insert q index data)) = name (info q) /\
  email (info (after_insert q index data)) = email (info q) /\
  chatCount (info (after_insert q index data)) = S (chatCount (info q)) /\
  timers (after_insert q index data)
  = timers q + (if wants_user_info
                     (mk_userInfo (name (info q)) (email (info q)) (S (chatCount (info q))))
                then 1 else 0) /\
  forms (after_insert q index data) = forms q.
Proof.
  unfold after_insert, forms. simpl.
  destruct (wants_user_info _); simpl; repeat split; lia.
Qed.


Lemma remove_child_forms ns pos :
  List.length (filter (fun n => is_form (Some n)) (remove_child ns pos))
  <= List.length (filter (fun n => is_form (Some n)) ns).
Proof.
  revert pos. induction ns as [|n ns IH]; intros pos; [destruct pos; auto|].
  destruct pos as [|k]; cbn [remove_child filter].
  - destruct (is_form (Some n)); cbn [List.length]; lia.
  - specialize (IH k). destruct (is_form (Some n)); cbn [List.length]; lia.
Qed.

Lemma wants_user_info_identified i :
  truthy_opt (name i) = true -> wants_user_info i = false.
Proof.
  intros H. unfold wants_user_info. rewrite H. cbn [negb].
  rewrite andb_false_r. reflexivity.
Qed.

(** Once name and email are captured no event asks for the prompt, and
    forms appear only for the timers that were already running. *)
Lemma identified_step p ev :
  identified p ->
  identified (step p ev) /\
  timers (step p ev) <= timers p /\
  forms (step p ev) + timers (step p ev) <= forms p + timers p.
Proof.
  intros [Hn He]. unfold identified.
  destruct ev as [f date r w | value date r w ins | | pos n m date u | row | r]; simpl step.
  - destruct (toggleWidget_keeps p f date r w) as (H1 & H2 & H3).
    rewrite H1, H2, H3. auto.
  - destruct (truthy (trim value)) eqn:Ht.
    + destruct (sendMessage_pending p value date r w) as (q & E & Q1 & Q2 & Q3).
      rewrite E by exact Ht.
      destruct (data_or_throw ins) as [data|err]; simpl.
      * destruct (after_insert_effect q (List.length (messages q) - 1) data)
          as (H1 & H2 & H3 & H4 & H5).
        rewrite wants_user_info_identified in H4 by (simpl; now rewrite Q1).
        rewrite H1, H2, H4, H5, Q1, Q2, Q3. repeat split; auto; lia.
      * rewrite Q1, Q2, Q3. auto.
    + unfold sendMessage. rewrite Ht. simpl. auto.
  - unfold timeout. destruct (timers p) as [|k] eqn:T; [rewrite T; auto|].
    unfold forms. simpl. rewrite forms_app. simpl. repeat split; auto; lia.
  - unfold submit.
    destruct (negb (is_form _)); [auto|].
    destruct (truthy (trim n) && truthy (trim m)) eqn:Ht; [|auto].
    apply andb_true_iff in Ht as [Tn Tm].
    destruct u as [data err|reason].
    + unfold forms. simpl. repeat split; auto.
      pose proof (remove_child_forms
                    (messagesElement p ++
                     [message_node (mk_message None (thank_you (trim n)) "business"
                                      false None date)]) pos) as R.
      rewrite forms_app in R. simpl in R. lia.
    + unfold forms. simpl. auto.
  - destruct (on_insert_keeps p (of_row row)) as (H1 & H2 & H3).
    rewrite H1, H2, H3. auto.
  - destruct (on_history_keeps p r) as (H1 & H2 & H3).
    rewrite H1, H2. repeat split; auto; lia.
Qed.

Lemma identified_run evs p :
  identified p ->
  identified (run_events p evs) /\
  timers (run_events p evs) <= timers p /\
  forms (run_events p evs) + timers (run_events p evs) <= forms p + timers p.
Proof.
  revert p. induction evs as [|ev evs IH]; intros p H; simpl; [auto|].
  destruct (identified_step p ev H) as (H1 & H2 & H3).
  destruct (IH _ H1) as (I1 & I2 & I3).
  repeat split; try apply I1; lia.
Qed.


End WidgetFacts.

(** ** The widget *)

Section WidgetTheorems.
Import Text Widget.



(** C9. The callback for insert events appends the row to the list of
    messages when the sender is the business and no message in the list
    has the row's id, and leaves the widget as it is otherwise.  Over any
    sequence of events the same rows are appended to the list and to the
    display; they are all sent by the business and taken from the events,
    and no id comes to be in the list twice that was not there twice
    before. *)
Theorem subscription_handler_appends_once :
  (forall (p : plugin) (r : chat_messages.row),
     (chat_messages.sender_type r = "business" /\
      (forall m, In m (messages p) -> id m <> Some (chat_messages.id r)) ->
      on_insert p (of_row r) = addMessage p (of_row r)) /\
     (chat_messages.sender_type r <> "business" \/
      (exists m, In m (messages p) /\ id m = Some (chat_messages.id r)) ->
      on_insert p (of_row r) = p)) /\
  (forall (p : plugin) (evs : list chat_messages.row),
     exists added,
       messages (fold_left on_insert (map of_row evs) p) = (messages p ++ added)%list /\
       messagesElement (fold_left on_insert (map of_row evs) p)
       = (messagesElement p ++ map message_node added)%list /\
       (forall m, In m added ->
          sender_type m = "business" /\ exists r, In r evs /\ m = of_row r) /\
       (forall x, count_id x (messages p ++ added) <= Nat.max 1 (count_id x (messages p)))).
Proof.
  split; [|apply on_insert_events].
  intros p r. unfold on_insert. simpl sender_type. simpl id. split.
  - intros [Hs Hid]. apply String.eqb_eq in Hs. rewrite Hs.
    destruct (existsb _ (messages p)) eqn:X; [|reflexivity].
    apply existsb_exists in X as (m & Hin & E).
    apply same_id_true in E. now apply Hid in Hin.
  - intros [Hs|(m & Hin & E)].
    + apply String.eqb_neq in Hs. now rewrite Hs.
    + assert (X : existsb (fun m0 => same_id (id m0) (Some (chat_messages.id r)))
                    (messages p) = true).
      { apply existsb_exists. exists m. split; [exact Hin|]. now apply same_id_true. }
      rewrite X. now rewrite andb_false_r.
Qed.

(** C10. [fetchWidgetSettings] always returns.  When the fetch failed
    (the request was rejected, or answered with an error, or without
    data) the settings are the fixed defaults, and [init], the script
    being loaded, builds the widget from them and marks it initialized. *)
Theorem settings_fetch_failure_uses_defaults :
  forall (p : plugin) (r : response widgets.row),
    (exists p', fetchWidgetSettings p r = Ok p') /\
    (failed r ->
     fetchWidgetSettings p r = Ok (set_settings p default_settings) /\
     default_settings
     = mk_settings "#0284c7" "Chat with us" "Hello! How can we help you today?" None /\
     forall (uid : uuid) (ls : localStorage),
       let w := init (constructor uid ls) (Ok tt) r in
       isInitialized w = true /\
       current_settings w = Some default_settings /\
       widgetElement w = Some (mk_elements "#0284c7" "Chat with us" None)).
Proof.
  intros p r. split; [eexists; reflexivity|].
  intros Hf.
  assert (E : forall q, fetchWidgetSettings q r = Ok (set_settings q default_settings)).
  { intros q. unfold fetchWidgetSettings, fetchWidgetSettings_try.
    destruct r as [[data|] [err|]|reason]; simpl; try reflexivity. destruct Hf. }
  split; [apply E|]. split; [reflexivity|].
  intros uid ls w. unfold w, init. rewrite E. simpl. auto.
Qed.

End WidgetTheorems.

(** ** The properties on the sample data *)

Section Instances.
Import Database Sample.

(** C1 on the rules "hi" and "hi there": nothing for the empty text, and
    what is returned for "Hi There friend" is contained in it. *)
Lemma match_only_contained_keywords_witness :
  Matcher.match_rule "" [rule_hi; rule_hi_there] = None /\
  (In rule_hi_there [rule_hi; rule_hi_there] /\
   Text.substring_of (Text.lower "hi there") (Text.lower "Hi There friend")).
Proof.
  split.
  - apply (proj1 (proj2 (proj2 (match_only_contained_keywords ""
                                  [rule_hi; rule_hi_there])))).
    intros r [<-|[<-|[]]]; discriminate.
  - apply (proj1 (match_only_contained_keywords "Hi There friend"
                    [rule_hi; rule_hi_there]) rule_hi_there).
    reflexivity.
Defined.

(** C2 on the same rules. *)
Lemma longest_keyword_wins_witness :
  exists w,
    Matcher.match_rule "hi there friend" [rule_hi; rule_hi_there] = Some w /\
    In w [rule_hi; rule_hi_there] /\
    Matcher.contained "hi there friend" w /\
    forall r, In r [rule_hi; rule_hi_there] ->
      Matcher.contained "hi there friend" r ->
      String.length (auto_replies.keyword r) <= String.length (auto_replies.keyword w).
Proof.
  apply (proj1 longest_keyword_wins "hi there friend" [rule_hi; rule_hi_there]).
  exists rule_hi. split; [left; reflexivity|].
  exists "", " there friend". reflexivity.
Defined.

(** C3 on the question about the hours. *)
Lemma at_most_one_auto_reply_witness :
  (exists d', insert_chat_message max_depth fine shop hours_question = Ok d') /\
  (exists replies,
     tbl_chat_messages
       (commit shop (insert_chat_message max_depth fine shop hours_question))
     = (tbl_chat_messages shop ++ new_row fine shop hours_question :: replies)%list /\
     List.length replies <= 1).
Proof.
  pose proof (at_most_one_auto_reply 98 fine shop hours_question) as (_ & H2 & H3 & _).
  split.
  - apply H2; [split; [reflexivity | intros s; reflexivity] | split; reflexivity].
  - destruct (H3 (commit shop (insert_chat_message max_depth fine shop hours_question)))
      as (replies & E & L & _); [reflexivity|].
    exists replies. split; [exact E | exact L].
Defined.

(** C5, as stated, fails: the same two rules, stored in the two possible
    orders, give two different winners for the text "hi yo". *)
Lemma tie_winner_depends_on_scan_order :
  Permutation [rule_hi; rule_yo] [rule_yo; rule_hi] /\
  Matcher.match_rule "hi yo" [rule_hi; rule_yo] = Some rule_hi /\
  Matcher.match_rule "hi yo" [rule_yo; rule_hi] = Some rule_yo /\
  ~ (forall (M : string) (R1 R2 : list auto_replies.row),
       Permutation R1 R2 -> Matcher.match_rule M R1 = Matcher.match_rule M R2).
Proof.
  split; [apply perm_swap|]. split; [reflexivity|]. split; [reflexivity|].
  intros H. specialize (H "hi yo" [rule_hi; rule_yo] [rule_yo; rule_hi] (perm_swap _ _ _)).
  discriminate H.
Qed.

(** C5 as the code has it, on the rules "hi" and "hi there". *)
Lemma match_is_first_best_in_scan_order_witness :
  Matcher.match_rule "hi there friend" [rule_hi; rule_hi_there]
  = Matcher.match_rule "hi there friend" [rule_hi_there; rule_hi] /\
  Matcher.match_rule "hi" (rules_of (commit shop
     (insert_chat_message max_depth fine shop hours_question)) 1)
  = Matcher.match_rule "hi" (rules_of shop 1).
Proof.
  pose proof match_is_first_best_in_scan_order as (_ & H2 & H3).
  split.
  - apply H2; [apply perm_swap|].
    assert (K : forall x, Matcher.best "hi there friend" [rule_hi; rule_hi_there] x ->
                          x = rule_hi_there).
    { intros x (Hin & _ & Hmax).
      destruct Hin as [<-|[<-|[]]]; [|reflexivity].
      assert (L : String.length (auto_replies.keyword rule_hi_there)
                  <= String.length (auto_replies.keyword rule_hi)).
      { apply Hmax; [right; left; reflexivity|].
        exists "", " friend". reflexivity. }
      simpl in L. lia. }
    intros a b Ba Bb. rewrite (K a Ba), (K b Bb). reflexivity.
  - apply (H3 max_depth fine shop _ hours_question). reflexivity.
Defined.

(** C6 on the question about the hours. *)
Lemma matched_keyword_iff_auto_reply_witness :
  Forall keyword_iff_auto_reply
    (tbl_chat_messages
       (Operations.perform_all shop
          [(fine, Operations.widget_sendMessage 1 1 "what are your hours?");
           (fine, Operations.dashboard_handleSendMessage 1 1 "We open at nine." 1001%Z fine)])).
Proof.
  apply matched_keyword_iff_auto_reply. constructor.
Defined.

(** C7, as stated, fails: the read of the rules fails, and the visitor's
    message is rejected and not stored. *)
Lemma failed_rule_read_rejects_message :
  references_ok shop hours_question /\
  chat_messages.v_sender_type hours_question = "visitor" /\
  insert_chat_message max_depth rule_read_fails shop hours_question
  = Raise "select auto_replies" /\
  tbl_chat_messages
    (commit shop (insert_chat_message max_depth rule_read_fails shop hours_question))
  = [] /\
  ~ (forall (e : env) (d : db) (v : chat_messages.values),
       references_ok d v ->
       chat_messages.v_sender_type v = "visitor" ->
       exists d', insert_chat_message max_depth e d v = Ok d' /\
                  In (new_row e d v) (tbl_chat_messages d')).
Proof.
  split; [split; reflexivity|]. split; [reflexivity|]. split; [reflexivity|].
  split; [reflexivity|].
  intros H.
  destruct (H rule_read_fails shop hours_question) as (d' & E & _);
    [split; reflexivity | reflexivity |].
  discriminate E.
Qed.

(** C7 as the code has it, on the question about the hours. *)
Lemma dispatch_failure_aborts_insert_witness :
  (exists err,
     insert_chat_message max_depth rule_read_fails shop hours_question = Raise err /\
     commit shop (insert_chat_message max_depth rule_read_fails shop hours_question)
     = shop) /\
  (exists d', insert_chat_message max_depth fine shop hours_question = Ok d' /\
              In (new_row fine shop hours_question) (tbl_chat_messages d')).
Proof.
  split.
  - apply (proj1 (dispatch_failure_aborts_insert 98 rule_read_fails shop hours_question
                    (conj eq_refl eq_refl) eq_refl)).
    right. reflexivity.
  - destruct (proj1 (proj2 (proj2 (dispatch_failure_aborts_insert 98 fine shop
                                     hours_question (conj eq_refl eq_refl) eq_refl))))
      as (d' & E & Hin & _); [split; [reflexivity | intros s; reflexivity]|].
    exists d'. split; [exact E | exact Hin].
Defined.



(** C9 on a widget that shows one reply: the event of a second reply,
    delivered twice, appends it once; a visitor's row is not appended. *)
Lemma subscription_handler_appends_once_witness :
  let reply := chat_messages.mk 11 1 1 "9-5 EST" "business" true (Some "hours") 1000%Z in
  let other := chat_messages.mk 12 1 1 "We open at nine." "business" false None 1001%Z in
  let question := chat_messages.mk 10 1 1 "what are your hours?" "visitor" false None 1000%Z in
  let p := Widget.on_insert offline_widget (Widget.of_row reply) in
  Widget.on_insert p (Widget.of_row other) = Widget.addMessage p (Widget.of_row other) /\
  Widget.on_insert p (Widget.of_row reply) = p /\
  Widget.on_insert p (Widget.of_row question) = p.
Proof.
  intros reply other question p.
  pose proof subscription_handler_appends_once as (H & _).
  split; [|split].
  - apply (proj1 (H p other)). split; [reflexivity|].
    intros m [<-|[]]. discriminate.
  - apply (proj2 (H p reply)). right.
    exists (Widget.of_row reply). split; [left; reflexivity | reflexivity].
  - apply (proj2 (H p question)). left. discriminate.
Defined.

(** C10 on a rejected fetch. *)
Lemma settings_fetch_failure_uses_defaults_witness :
  Widget.isInitialized offline_widget = true /\
  Widget.current_settings offline_widget = Some Widget.default_settings.
Proof.
  destruct (proj2 (settings_fetch_failure_uses_defaults
                     (Widget.constructor 1 (Widget.mk_localStorage None None None None))
                     (Widget.rejected "Failed to fetch")) I)
    as (_ & _ & H).
  destruct (H 1 (Widget.mk_localStorage None None None None)) as (H1 & H2 & _).
  split; [exact H1 | exact H2].
Defined.

End Instances.

(* ================================================================== *)
(** * Part III: further properties of the code *)
(* ================================================================== *)

(** ** White space *)

Section TrimFacts.
Import Text Js.

Lemma trim_start_head (s : string) :
  match trim_start s with
  | EmptyString => True
  | String c _ => is_space c = false
  end.
Proof.
  induction s as [|c s IH]; simpl; [exact I|].
  destruct (is_space c) eqn:E; [exact IH | exact E].
Qed.

Lemma trim_end_head (c : ascii) (x : string) :
  is_space c = false -> exists t, trim_end (String c x) = String c t.
Proof.
  intros H. simpl. destruct (trim_end x) as [|b t].
  - rewrite H. eauto.
  - eauto.
Qed.

Lemma trim_end_idempotent (x : string) : trim_end (trim_end x) = trim_end x.
Proof.
  induction x as [|c x IH]; simpl; [reflexivity|].
  destruct (trim_end x) as [|b t] eqn:E.
  - destruct (is_space c) eqn:S; simpl; [reflexivity|]. now rewrite S.
  - change (trim_end (String c (String b t)))
      with (match trim_end (String b t) with
            | EmptyString => if is_space c then EmptyString else String c EmptyString
            | rest => String c rest
            end).
    rewrite IH. reflexivity.
Qed.

Lemma trim_start_fixed (y : string) :
  match y with EmptyString => True | String c _ => is_space c = false end ->
  trim_start y = y.
Proof. destruct y as [|c y]; simpl; [reflexivity|]. now intros ->. Qed.

(** Trimming twice is trimming once. *)
Lemma trim_idempotent (s : string) : trim (trim s) = trim s.
Proof.
  unfold trim. pose proof (trim_start_head s) as H.
  destruct (trim_start s) as [|c y] eqn:E; [reflexivity|].
  destruct (trim_end_head c y H) as [t Ht].
  rewrite Ht. rewrite (trim_start_fixed (String c t) H).
  rewrite <- Ht. apply trim_end_idempotent.
Qed.

Lemma trim_start_blank (s : string) : trim_start s = EmptyString <-> blank s = true.
Proof.
  induction s as [|c s IH]; simpl; [tauto|].
  destruct (is_space c); simpl; [exact IH|].
  split; discriminate.
Qed.

(** What [trim] leaves nothing of is white space only. *)
Lemma trim_blank (s : string) : truthy (trim s) = false <-> blank s = true.
Proof.
  rewrite <- trim_start_blank. unfold trim.
  pose proof (trim_start_head s) as H.
  destruct (trim_start s) as [|c y].
  - simpl. split; reflexivity.
  - destruct (trim_end_head c y H) as [t Ht]. rewrite Ht. simpl.
    split; discriminate.
Qed.

Lemma truthy_not_empty (s : string) : truthy s = true <-> s <> EmptyString.
Proof. destruct s; simpl; split; congruence. Qed.

End TrimFacts.

(** ** The auto-reply page *)

Section AutoReplyPageTheorems.
Import Text Js AutoReplyPage.

Lemma clean_trim (s : string) : truthy (trim s) = true -> clean (trim s).
Proof.
  intros H. split; [now apply truthy_not_empty | apply trim_idempotent].
Qed.

Lemma parse_row_clean k r user w row :
  List.length (parse_row k r user w row) <= 1 /\
  Forall (fun v => v_user_id v = user /\ v_widget_id v = w /\
                   clean (v_keyword v) /\ clean (v_response v))
         (parse_row k r user w row).
Proof.
  unfold parse_row, column.
  destruct (negb (truthy (trim row))); [simpl; auto|].
  destruct (nth_error (split comma row) k) as [a|]; simpl; [|auto].
  destruct (nth_error (split comma row) r) as [b|]; simpl; [|auto].
  destruct (truthy (trim a)) eqn:Ta; simpl; [|auto].
  destruct (truthy (trim b)) eqn:Tb; simpl; [|auto].
  split; [auto|]. constructor; [|constructor]. simpl.
  repeat split; try reflexivity; apply clean_trim; assumption.
Qed.

Lemma flat_map_parse_rows k r user w rows :
  List.length (flat_map (parse_row k r user w) rows) <= List.length rows /\
  Forall (fun v => v_user_id v = user /\ v_widget_id v = w /\
                   clean (v_keyword v) /\ clean (v_response v))
         (flat_map (parse_row k r user w) rows).
Proof.
  induction rows as [|row rows [IHl IHf]]; simpl; [auto|].
  destruct (parse_row_clean k r user w row) as [Hl Hf].
  rewrite length_app. split; [lia | apply Forall_app; auto].
Qed.

Lemma add_form_rows user w keyword response rows :
  handleAddAutoReply user w keyword response = Ok rows ->
  rows = [mk_values user w (trim keyword) (trim response)] /\
  clean (trim keyword) /\ clean (trim response).
Proof.
  unfold handleAddAutoReply.
  destruct (truthy (trim keyword)) eqn:Tk; simpl; [|discriminate].
  destruct (truthy (trim response)) eqn:Tr; simpl; [|discriminate].
  intros H. inversion H. auto using clean_trim.
Qed.

Lemma csv_rows user w csvText rows :
  handleCSVUpload user w csvText = Ok rows ->
  1 <= List.length rows <= List.length (split newline csvText) - 1 /\
  Forall (fun v => v_user_id v = user /\ v_widget_id v = w /\
                   clean (v_keyword v) /\ clean (v_response v)) rows.
Proof.
  unfold handleCSVUpload.
  destruct (findIndex (is_header "keyword") _) as [k|]; [|discriminate].
  destruct (findIndex (is_header "response") _) as [r|]; [|discriminate].
  destruct (flat_map_parse_rows k r user w (tl (split newline csvText))) as [Hl Hf].
  destruct (flat_map _ _) as [|v vs] eqn:E; [discriminate|].
  intros H. inversion H. subst rows.
  split; [|exact Hf].
  assert (L : List.length (tl (split newline csvText))
              = List.length (split newline csvText) - 1)
    by (destruct (split newline csvText); simpl; lia).
  simpl in *. lia.
Qed.

(** X1. What the add form and the CSV import pass on for insertion is
    clean: for the form the one row of the trimmed keyword and response,
    for the import at least one row and at most one for each line after
    the header, every row with the user's and widget's ids and with a
    keyword and a response that are not empty and have no white space
    around them. *)
Theorem dashboard_rows_are_clean :
  forall (user w : uuid),
    (forall keyword response rows,
       handleAddAutoReply user w keyword response = Ok rows ->
       rows = [mk_values user w (trim keyword) (trim response)] /\
       clean (trim keyword) /\ clean (trim response)) /\
    (forall csvText rows,
       handleCSVUpload user w csvText = Ok rows ->
       1 <= List.length rows <= List.length (split newline csvText) - 1 /\
       Forall (fun v => v_user_id v = user /\ v_widget_id v = w /\
                        clean (v_keyword v) /\ clean (v_response v)) rows).
Proof.
  intros user w. split.
  - intros keyword response rows. apply add_form_rows.
  - intros csvText rows. apply csv_rows.
Qed.

Lemma store_well_formed e d rows d' :
  Forall (fun v => clean (v_keyword v) /\ clean (v_response v)) rows ->
  Forall well_formed (Database.tbl_auto_replies d) ->
  store e d rows = Ok d' ->
  Forall well_formed (Database.tbl_auto_replies d').
Proof.
  intros Hr Hd. unfold store. destruct (forallb _ rows); [|discriminate].
  intros H. inversion H. simpl. apply Forall_app. split; [exact Hd|].
  apply Forall_forall. intros x Hx. apply in_map_iff in Hx as ([i v] & <- & Hin).
  apply in_combine_r in Hin. rewrite Forall_forall in Hr. apply Hr in Hin.
  exact Hin.
Qed.

Lemma perform_well_formed e d a :
  Forall well_formed (Database.tbl_auto_replies d) ->
  Forall well_formed (Database.tbl_auto_replies (perform e d a)).
Proof.
  intros Hd. destruct a as [user w k r | user w text | i]; simpl.
  - destruct (handleAddAutoReply user w k r) as [rows|] eqn:E; simpl; [|exact Hd].
    apply add_form_rows in E as (-> & Ck & Cr).
    destruct (store e d _) as [d'|] eqn:S; simpl; [|exact Hd].
    revert S. apply store_well_formed; [|exact Hd].
    constructor; [split; assumption | constructor].
  - destruct (handleCSVUpload user w text) as [rows|] eqn:E; simpl; [|exact Hd].
    apply csv_rows in E as (_ & Hf).
    destruct (store e d rows) as [d'|] eqn:S; simpl; [|exact Hd].
    revert S. apply store_well_formed; [|exact Hd].
    eapply Forall_impl; [|exact Hf]. simpl. tauto.
  - apply Forall_forall. intros x Hx. apply filter_In in Hx as [Hx _].
    rewrite Forall_forall in Hd. now apply Hd.
Qed.

Lemma empty_text_no_match (R : list auto_replies.row) :
  Forall well_formed R -> Matcher.match_rule "" R = None.
Proof.
  intros H. destruct (Matcher.match_rule "" R) as [w0|] eqn:E; [|reflexivity].
  apply match_rule_best in E as (Hin & Hc & _).
  apply contains_keyword_spec in Hc. unfold Matcher.contains_keyword in Hc.
  apply Nat.ltb_lt in Hc. simpl lower in Hc.
  apply position_in_empty, lower_empty in Hc.
  rewrite Forall_forall in H. apply H in Hin as [[Hne _] _]. contradiction.
Qed.

(** X2. The rules stay clean under every history of the page's actions
    (add, import, delete): if every stored rule has a keyword and a
    response that are not empty and not surrounded by white space, so it
    is afterwards; and then the empty message text matches no rule of any
    widget. *)
Theorem rule_store_stays_clean :
  forall (d : Database.db) (acts : list (Database.env * action)),
    Forall well_formed (Database.tbl_auto_replies d) ->
    Forall well_formed (Database.tbl_auto_replies (perform_all d acts)) /\
    forall w, Matcher.match_rule "" (Database.rules_of (perform_all d acts) w) = None.
Proof.
  intros d acts. revert d. induction acts as [|[e a] acts IH]; intros d Hd; simpl.
  - split; [exact Hd|]. intros w. apply empty_text_no_match.
    apply Forall_forall. intros x Hx. apply filter_In in Hx as [Hx _].
    rewrite Forall_forall in Hd. now apply Hd.
  - apply IH. now apply perform_well_formed.
Qed.

(** X3. The search box lists exactly the rules whose keyword or response
    contains the search term, case ignored, in the order of the list; the
    empty term lists them all. *)
Theorem search_lists_the_containing_rules :
  forall (searchTerm : string) (autoReplies : list auto_replies.row),
    (forall r, In r (filteredAutoReplies searchTerm autoReplies) <->
       In r autoReplies /\
       (substring_of (lower searchTerm) (lower (auto_replies.keyword r)) \/
        substring_of (lower searchTerm) (lower (auto_replies.response r)))) /\
    (exists keep, filteredAutoReplies searchTerm autoReplies = filter keep autoReplies) /\
    filteredAutoReplies "" autoReplies = autoReplies.
Proof.
  intros searchTerm autoReplies. split; [|split; [|reflexivity]].
  - intros r. unfold filteredAutoReplies.
    destruct (truthy searchTerm) eqn:T.
    + rewrite filter_In, orb_true_iff. unfold includes.
      rewrite !Nat.ltb_lt, !position_found. tauto.
    + destruct searchTerm; [|discriminate]. simpl.
      split; [|tauto]. intros H. split; [exact H|].
      left. exists "", (lower (auto_replies.keyword r)). reflexivity.
  - unfold filteredAutoReplies. destruct (truthy searchTerm); [eauto|].
    exists (fun _ => true). induction autoReplies as [|a l IH]; simpl; congruence.
Qed.

End AutoReplyPageTheorems.

(** ** More about the trigger *)

Section TriggerTheorems.
Import Text Database.

Lemma lower_char_idempotent (c : ascii) : lower_char (lower_char c) = lower_char c.
Proof. destruct c as [[] [] [] [] [] [] [] []]; reflexivity. Qed.

Lemma lower_idempotent (s : string) : lower (lower s) = lower s.
Proof.
  induction s as [|c s IH]; simpl; [reflexivity|].
  now rewrite lower_char_idempotent, IH.
Qed.

Lemma contains_keyword_case M M' r :
  lower M = lower M' -> Matcher.contains_keyword M r = Matcher.contains_keyword M' r.
Proof. unfold Matcher.contains_keyword. now intros ->. Qed.

(** X4. The matcher ignores the case of the message text: two texts that
    differ by case only get the same rule, and so does a text and its
    lower-cased form; a rule whose keyword is written in another case
    matches the same texts. *)
Theorem matching_ignores_case :
  (forall (M M' : string) (R : list auto_replies.row),
     lower M = lower M' -> Matcher.match_rule M R = Matcher.match_rule M' R) /\
  (forall (M : string) (R : list auto_replies.row),
     Matcher.match_rule (lower M) R = Matcher.match_rule M R) /\
  (forall (M : string) (r r' : auto_replies.row),
     lower (auto_replies.keyword r) = lower (auto_replies.keyword r') ->
     Matcher.contains_keyword M r = Matcher.contains_keyword M r').
Proof.
  assert (H : forall M M' R, lower M = lower M' ->
                             Matcher.match_rule M R = Matcher.match_rule M' R).
  { intros M M' R E. unfold Matcher.match_rule. do 2 f_equal.
    apply filter_ext. intros r. now apply contains_keyword_case. }
  split; [exact H|]. split.
  - intros M R. apply H. apply lower_idempotent.
  - intros M r r' E. unfold Matcher.contains_keyword. now rewrite E.
Qed.

(** X5. Whatever row an insert adds besides the inserted one answers
    with a rule of the same widget whose keyword is contained in the
    inserted text: it carries that rule's keyword and response, the chat
    and the widget of the inserted row, and the business as sender. *)
Theorem auto_reply_quotes_a_rule_of_the_widget :
  forall (k : nat) (e : env) (d d' : db) (v : chat_messages.values)
         (m : chat_messages.row),
    insert_chat_message (S (S k)) e d v = Ok d' ->
    In m (tbl_chat_messages d') ->
    ~ In m (tbl_chat_messages d) ->
    m <> new_row e d v ->
    exists rule,
      In rule (tbl_auto_replies d) /\
      auto_replies.widget_id rule = chat_messages.v_widget_id v /\
      Matcher.contained (chat_messages.v_content v) rule /\
      chat_messages.auto_reply_keyword m = Some (auto_replies.keyword rule) /\
      chat_messages.content m = auto_replies.response rule /\
      chat_messages.chat_id m = chat_messages.v_chat_id v /\
      chat_messages.widget_id m = chat_messages.v_widget_id v /\
      chat_messages.sender_type m = "business" /\
      chat_messages.is_auto_reply m = true.
Proof.
  intros k e d d' v m H Hin Hold Hnew.
  apply insert_result in H as [[-> _]|(reply & _ & Hm & ->)].
  - simpl in Hin. apply in_app_or in Hin as [Hin|[<-|[]]]; contradiction.
  - simpl in Hin. apply in_app_or in Hin as [Hin|[<-|[]]].
    + apply in_app_or in Hin as [Hin|[<-|[]]]; contradiction.
    + rewrite matching_reply_match_rule in Hm.
      apply match_rule_best in Hm as (Hr & Hc & _).
      apply filter_In in Hr as [Hr _].
      apply filter_In in Hr as [Hr Hw]. apply Nat.eqb_eq in Hw.
      exists reply. simpl in *. repeat split; auto.
Qed.

Lemma touch_kept e t chat (l : list chats.row) :
  Forall2 (Frame.kept_outside chat) l
    (map (fun c =>
            if (chats.id c =? chat)%nat
            then update_updated_at_column e
                   (chats.mk (chats.id c) (chats.widget_id c) (chats.visitor_name c)
                             (chats.visitor_email c) (chats.visitor_page c)
                             (chats.created_at c) t)
            else c) l).
Proof.
  induction l as [|c l IH]; simpl; constructor; [|exact IH].
  unfold Frame.kept_outside, Frame.kept.
  destruct (chats.id c =? chat)%nat eqn:E; simpl.
  - apply Nat.eqb_eq in E. repeat split; auto. intros H. contradiction.
  - repeat split; auto.
Qed.

Lemma update_chat_kept e chat d :
  Forall2 (Frame.kept_outside chat) (tbl_chats d) (tbl_chats (update_chat_of e chat d)).
Proof.
  unfold update_chat_of. simpl tbl_chats. generalize (update_chat_allowed (role e) d).
  intros allowed. induction (tbl_chats d) as [|c l IH]; simpl; constructor; [|exact IH].
  unfold Frame.kept_outside, Frame.kept.
  destruct (chats.id c =? chat)%nat eqn:E; destruct (allowed c); simpl;
    try (repeat split; auto; fail).
  apply Nat.eqb_eq in E. repeat split; auto. intros H. contradiction.
Qed.

Lemma kept_outside_refl chat (l : list chats.row) :
  Forall2 (Frame.kept_outside chat) l l.
Proof.
  induction l; constructor; auto. unfold Frame.kept_outside, Frame.kept. tauto.
Qed.

Lemma insert_frame k e d v d' :
  insert_chat_message (S (S k)) e d v = Ok d' ->
  tbl_widgets d' = tbl_widgets d /\
  tbl_auto_replies d' = tbl_auto_replies d /\
  (exists added, tbl_chat_messages d' = (tbl_chat_messages d ++ added)%list /\
                 1 <= List.length added <= 2) /\
  Forall2 (Frame.kept_outside (chat_messages.v_chat_id v)) (tbl_chats d) (tbl_chats d').
Proof.
  intros H. apply insert_result in H as [[-> _]|(reply & _ & _ & ->)]; simpl.
  - repeat split; auto.
    + eexists. split; [reflexivity|]. simpl. lia.
    + apply kept_outside_refl.
  - repeat split; auto.
    + eexists. rewrite <- app_assoc. split; [reflexivity|]. simpl. lia.
    + apply (update_chat_kept e (chat_messages.v_chat_id v)
               (store_row e (store_row e d v) (auto_reply_values (new_row e d v) reply))).
Qed.

(** X6. A successful insert into [chat_messages], with its trigger, keeps
    every stored message and adds one or two at the end; it leaves the
    widgets and the rules as they are; of the chats it changes nothing
    but [updated_at], and that only for the chat of the inserted row. *)
Theorem insert_touches_only_its_chat :
  forall (k : nat) (e : env) (d d' : db) (v : chat_messages.values),
    insert_chat_message (S (S k)) e d v = Ok d' ->
    tbl_widgets d' = tbl_widgets d /\
    tbl_auto_replies d' = tbl_auto_replies d /\
    (exists added, tbl_chat_messages d' = (tbl_chat_messages d ++ added)%list /\
                   1 <= List.length added <= 2) /\
    Forall2 (Frame.kept_outside (chat_messages.v_chat_id v)) (tbl_chats d) (tbl_chats d').
Proof.
  intros k e d d' v H.
  apply insert_result in H as [[-> _]|(reply & _ & _ & ->)]; simpl.
  - repeat split; auto.
    + eexists. split; [reflexivity|]. simpl. lia.
    + apply kept_outside_refl.
  - repeat split; auto.
    + eexists. rewrite <- app_assoc. split; [reflexivity|]. simpl. lia.
    + apply (update_chat_kept e (chat_messages.v_chat_id v)
               (store_row e (store_row e d v) (auto_reply_values (new_row e d v) reply))).
Qed.



Lemma kept_trans (l1 l2 l3 : list chats.row) :
  Forall2 Frame.kept l1 l2 -> Forall2 Frame.kept l2 l3 -> Forall2 Frame.kept l1 l3.
Proof.
  intros H. revert l3. induction H as [|a b l1 l2 Hab _ IH]; intros l3 H3.
  - inversion H3. constructor.
  - inversion H3 as [|? c ? l3' Hbc Hrest]; subst. constructor; [|now apply IH].
    unfold Frame.kept in *. intuition congruence.
Qed.

Lemma kept_outside_kept chat (l l' : list chats.row) :
  Forall2 (Frame.kept_outside chat) l l' -> Forall2 Frame.kept l l'.
Proof. intros H. eapply Forall2_impl; [|exact H]. intros a b [K _]. exact K. Qed.

Lemma perform_frame e d op d' :
  Operations.perform e d op = Ok d' ->
  tbl_widgets d' = tbl_widgets d /\
  tbl_auto_replies d' = tbl_auto_replies d /\
  (exists added, tbl_chat_messages d' = (tbl_chat_messages d ++ added)%list /\
                 List.length added <= 2) /\
  Forall2 Frame.kept (tbl_chats d) (tbl_chats d').
Proof.
  assert (Same : tbl_widgets d = tbl_widgets d /\
                 tbl_auto_replies d = tbl_auto_replies d /\
                 (exists added, tbl_chat_messages d = (tbl_chat_messages d ++ added)%list /\
                                List.length added <= 2) /\
                 Forall2 Frame.kept (tbl_chats d) (tbl_chats d)).
  { repeat split; auto.
    - exists []. rewrite app_nil_r. simpl. auto.
    - eapply kept_outside_kept, (kept_outside_refl 0). }
  assert (Ins : forall v d1, insert_chat_message (S (S 98)) e d v = Ok d1 ->
                 tbl_widgets d1 = tbl_widgets d /\
                 tbl_auto_replies d1 = tbl_auto_replies d /\
                 (exists added, tbl_chat_messages d1 = (tbl_chat_messages d ++ added)%list /\
                                List.length added <= 2) /\
                 Forall2 Frame.kept (tbl_chats d) (tbl_chats d1)).
  { intros v d1 H. apply insert_frame in H as (H1 & H2 & (added & H3 & H4) & H5).
    repeat split; auto.
    - exists added. split; [exact H3 | lia].
    - eapply kept_outside_kept; eauto. }
  destruct op; unfold Operations.perform; change max_depth with (S (S 98)).
  - destruct (negb _); [intros H; inversion H; subst; exact Same | apply Ins].
  - apply Ins.
  - destruct (negb _); [intros H; inversion H; subst; exact Same|].
    destruct (insert_chat_message _ e d _) as [d1|] eqn:I; cbn [bind]; [|discriminate].
    intros H; inversion H; subst. apply Ins in I as (H1 & H2 & H3 & H4).
    repeat split; auto.
    eapply kept_trans; [exact H4|]. simpl.
    eapply kept_outside_kept, touch_kept.
Qed.

(** X8. Over every history of the operations that create messages (the
    visitor's send, the welcome message, the agent's send, with the
    auto-replies of the trigger) the stored messages only grow at the
    end, by at most two for each operation; the widgets and the rules
    stay as they are, and of the chats nothing changes but
    [updated_at]. *)
Theorem message_history_is_append_only :
  forall (d : db) (ops : list (env * Operations.operation)),
    let d' := Operations.perform_all d ops in
    tbl_widgets d' = tbl_widgets d /\
    tbl_auto_replies d' = tbl_auto_replies d /\
    (exists added, tbl_chat_messages d' = (tbl_chat_messages d ++ added)%list /\
                   List.length added <= 2 * List.length ops) /\
    Forall2 Frame.kept (tbl_chats d) (tbl_chats d').
Proof.
  intros d ops. revert d. induction ops as [|[e op] ops IH]; intros d; simpl.
  - repeat split; auto.
    + exists []. rewrite app_nil_r. auto.
    + eapply kept_outside_kept, (kept_outside_refl 0).
  - destruct (IH (commit d (Operations.perform e d op)))
      as (I1 & I2 & (added2 & I3 & I4) & I5).
    destruct (Operations.perform e d op) as [d1|] eqn:P; simpl in *.
    + apply perform_frame in P as (P1 & P2 & (added1 & P3 & P4) & P5).
      rewrite I1, I2, I3, P1, P2, P3. repeat split; auto.
      * exists (added1 ++ added2)%list. rewrite app_assoc, length_app.
        split; [reflexivity | lia].
      * eapply kept_trans; eauto.
    + repeat split; auto. exists added2. split; [exact I3 | lia].
Qed.

Lemma update_chat_allowed_widgets r d1 d c :
  tbl_widgets d1 = tbl_widgets d ->
  update_chat_allowed r d1 c = update_chat_allowed r d c.
Proof. intros H. unfold update_chat_allowed. now rewrite H. Qed.

Lemma update_chat_of_has e chat d :
  (exists c, In c (tbl_chats d) /\ chats.id c = chat) ->
  exists c, In c (tbl_chats (update_chat_of e chat d)) /\ chats.id c = chat.
Proof.
  intros (c & Hin & E). unfold update_chat_of. simpl tbl_chats.
  eexists. split; [apply in_map; exact Hin|].
  destruct (_ && _); exact E.
Qed.

(** A chat after the trigger's update: touched if the role may update
    it, and as it was if not. *)
Lemma update_chat_of_in e chat d c :
  In c (tbl_chats (update_chat_of e chat d)) -> chats.id c = chat ->
  if update_chat_allowed (role e) d c then chats.updated_at c = now e
  else In c (tbl_chats d).
Proof.
  unfold update_chat_of. simpl tbl_chats.
  intros Hin E. apply in_map_iff in Hin as (c0 & <- & Hin).
  destruct (chats.id c0 =? chat)%nat eqn:C.
  - destruct (update_chat_allowed (role e) d c0) eqn:U; cbn [andb].
    + change (update_chat_allowed (role e) d
                (update_updated_at_column e
                   (chats.mk (chats.id c0) (chats.widget_id c0) (chats.visitor_name c0)
                      (chats.visitor_email c0) (chats.visitor_page c0)
                      (chats.created_at c0) (now e))))
        with (update_chat_allowed (role e) d c0).
      rewrite U. reflexivity.
    + rewrite U. exact Hin.
  - cbn [andb] in E. apply Nat.eqb_neq in C. contradiction.
Qed.

(** X22. When the matcher returns a rule for the text of a visitor's
    message on the rules of the widget that the inserting role can view,
    the insert of the message succeeds, the store being available and the
    references valid, and adds, after the message itself, exactly one
    row: in the same chat and widget, sent by the business, flagged as
    auto-reply, with the rule's keyword as matched keyword and the rule's
    response as content.  The chat exists; if the role may update it, its
    [updated_at] is then the transaction's [now()], which is the
    [created_at] of the new row, and otherwise the chat is as it was. *)
Theorem auto_reply_is_persisted :
  forall (k : nat) (e : env) (d : db) (v : chat_messages.values)
         (reply : auto_replies.row),
    available e ->
    references_ok d v ->
    chat_messages.v_sender_type v = "visitor" ->
    Matcher.match_rule (chat_messages.v_content v)
      (visible_rules e d (chat_messages.v_widget_id v)) = Some reply ->
    exists d',
      insert_chat_message (S (S k)) e d v = Ok d' /\
      let auto_reply :=
        chat_messages.mk (S (next_uuid d))
          (chat_messages.v_chat_id v) (chat_messages.v_widget_id v)
          (auto_replies.response reply) "business" true
          (Some (auto_replies.keyword reply)) (now e) in
      tbl_chat_messages d' = (tbl_chat_messages d ++ [new_row e d v; auto_reply])%list /\
      (exists c, In c (tbl_chats d') /\ chats.id c = chat_messages.v_chat_id v) /\
      (forall c, In c (tbl_chats d') -> chats.id c = chat_messages.v_chat_id v ->
         if update_chat_allowed (role e) d c
         then chats.updated_at c = now e /\
              (chat_messages.created_at auto_reply <= chats.updated_at c)%Z
         else In c (tbl_chats d)).
Proof.
  intros k e d v reply Ha Hr Hs Hm.
  rewrite insert_available by assumption.
  rewrite Hs. simpl String.eqb.
  rewrite matching_reply_match_rule. simpl chat_messages.content.
  simpl chat_messages.widget_id.
  change (visible_rules e (store_row e d v)) with (visible_rules e d). rewrite Hm.
  eexists. split; [reflexivity|]. cbv zeta.
  split; [simpl; now rewrite <- app_assoc|].
  set (d1 := store_row e (store_row e d v) (auto_reply_values (new_row e d v) reply)).
  split.
  - destruct Hr as [Hc _]. apply references_chat_in in Hc as (c & Hin & E).
    apply (update_chat_of_has e (chat_messages.v_chat_id v) d1). exists c. auto.
  - intros c Hin E.
    apply update_chat_of_in in Hin; [|exact E].
    rewrite (update_chat_allowed_widgets _ d1 d) in Hin by reflexivity.
    destruct (update_chat_allowed (role e) d c); [|exact Hin].
    split; [exact Hin|]. simpl. lia.
Qed.

(** X23. The trigger answers only with what the inserting role can view
    and is refused what the role may not do.  A role for which no policy
    lets it create messages, as [anon], is refused the insert.  Whatever
    row an insert adds besides the inserted one quotes a rule of the
    widget that the role of the insert can view; so for a role that can
    view no rule of the widget a successful insert stores the inserted
    row and nothing else, whatever rules the widget has. *)
Theorem auto_reply_needs_a_viewable_rule :
  forall (k : nat) (e : env) (d : db) (v : chat_messages.values),
    (create_message_allowed (role e) = false ->
       insert_chat_message (S k) e d v
       = Raise "new row violates row-level security policy for table chat_messages") /\
    (forall d' m,
       insert_chat_message (S (S k)) e d v = Ok d' ->
       In m (tbl_chat_messages d') -> ~ In m (tbl_chat_messages d) ->
       m <> new_row e d v ->
       exists rule,
         In rule (visible_rules e d (chat_messages.v_widget_id v)) /\
         view_auto_reply (role e) rule = true /\
         chat_messages.auto_reply_keyword m = Some (auto_replies.keyword rule) /\
         chat_messages.content m = auto_replies.response rule) /\
    (forall d',
       (forall r, In r (rules_of d (chat_messages.v_widget_id v)) ->
                  view_auto_reply (role e) r = false) ->
       insert_chat_message (S (S k)) e d v = Ok d' ->
       d' = store_row e d v).
Proof.
  intros k e d v. split; [apply insert_refused|]. split.
  - intros d' m H Hin Hold Hnew.
    apply insert_result in H as [[-> _]|(reply & _ & Hm & ->)].
    + simpl in Hin. apply in_app_or in Hin as [Hin|[<-|[]]]; contradiction.
    + simpl in Hin. apply in_app_or in Hin as [Hin|[<-|[]]].
      * apply in_app_or in Hin as [Hin|[<-|[]]]; contradiction.
      * rewrite matching_reply_match_rule in Hm.
        apply match_rule_best in Hm as (Hr & _ & _).
        exists reply. split; [exact Hr|].
        apply filter_In in Hr as [_ Hv]. auto.
  - intros d' Hnone H.
    apply insert_result in H as [[-> _]|(reply & _ & Hm & _)]; [reflexivity|].
    rewrite matching_reply_match_rule in Hm.
    change (visible_rules e (store_row e d v)) with (visible_rules e d) in Hm.
    simpl chat_messages.widget_id in Hm.
    rewrite visible_rules_none in Hm by exact Hnone. discriminate Hm.
Qed.

End TriggerTheorems.

(** ** More about the widget *)

Section SessionTheorems.
Import Text Js Widget Session.

Ltac cases_of t :=
  unfold t;
  repeat match goal with
    | |- context [match data_or_throw ?r with _ => _ end] => destruct (data_or_throw r)
    | |- context [match messages ?p with _ => _ end] => destruct (messages p)
    | |- context [match current_settings ?p with _ => _ end] =>
        destruct (current_settings p)
    | |- context [match ?w with resolved _ _ => _ | rejected _ => _ end] => destruct w
    end;
  simpl.

Lemma createChat_messages p r w :
  messages (createChat p r w) = messages p /\
  messagesElement (createChat p r w) = messagesElement p.
Proof. cases_of createChat; auto. Qed.

Lemma createChat_saved p r w :
  chatId p = None -> saved p -> saved (createChat p r w).
Proof.
  intros Hc (H1 & H2 & H3 & H4). unfold saved.
  cases_of createChat; repeat split; auto;
    intros c E; try (apply H4 in E; congruence); congruence.
Qed.

Lemma addMessage_saved p m : saved p -> saved (addMessage p m).
Proof. intros (H1 & H2 & H3 & H4). unfold saved. simpl. auto. Qed.

Lemma fold_addMessage_saved ms p :
  saved p -> saved (fold_left addMessage ms p).
Proof.
  revert p. induction ms as [|m ms IH]; intros p H; simpl; [exact H|].
  apply IH. now apply addMessage_saved.
Qed.

Lemma saved_step p ev : saved p -> saved (step p ev).
Proof.
  intros H.
  destruct ev as [f date r w | value date r w ins | | pos n m date u | row | r];
    simpl step.
  - unfold toggleWidget.
    destruct (match f with Some b => b | None => negb (isOpen p) end); [|exact H].
    simpl messages. destruct (messages p); [|exact H].
    simpl current_settings. destruct (current_settings p) as [s|]; [|exact H].
    set (q := addMessage _ _).
    assert (Hq : saved q) by (apply addMessage_saved; exact H).
    destruct (chatId q) eqn:C; [exact Hq|]. now apply createChat_saved.
  - unfold sendMessage. destruct (negb (truthy (trim value))); [exact H|].
    set (p1 := match chatId p with None => createChat p r w | Some _ => p end).
    assert (H1 : saved p1).
    { unfold p1. destruct (chatId p) eqn:C; [exact H|]. now apply createChat_saved. }
    set (q := send (addMessage p1 _) _).
    assert (Hq : saved q) by (apply (addMessage_saved p1); exact H1).
    destruct (data_or_throw ins) as [data|err]; simpl; [|exact Hq].
    destruct Hq as (Q1 & Q2 & Q3 & Q4). unfold saved, after_insert.
    destruct (wants_user_info _); simpl; auto.
  - unfold timeout. destruct (timers p); exact H.
  - unfold submit. destruct (negb (is_form _)); [exact H|].
    destruct (truthy (trim n) && truthy (trim m)); [|exact H].
    destruct H as (H1 & H2 & H3 & H4). unfold saved.
    destruct u; simpl; auto.
  - unfold on_insert. destruct (_ && _); [|exact H]. now apply addMessage_saved.
  - unfold on_history. destruct r as [[data|] [err|]|reason]; try exact H.
    apply fold_addMessage_saved. exact H.
Qed.

Lemma saved_run evs p : saved p -> saved (run_events p evs).
Proof.
  revert p. induction evs as [|ev evs IH]; intros p H; simpl; [exact H|].
  apply IH. now apply saved_step.
Qed.

Lemma init_saved uid ls r : saved (init (constructor uid ls) (Ok tt) r).
Proof.
  unfold init, fetchWidgetSettings.
  destruct r as [[data|] [err|]|reason]; simpl; unfold saved, stored_count; simpl; auto.
Qed.

(** X9. A reload of the page restores the session: after any events on
    an initialized widget, a new plugin on the same [localStorage] has,
    after [loadChatHistory], the same name, email and message count, and
    if it resumes a chat it is the chat the widget was in. *)
Theorem reload_restores_the_session :
  forall (uid : uuid) (ls : localStorage) (r : response widgets.row)
         (evs : list event),
    let p := run_events (init (constructor uid ls) (Ok tt) r) evs in
    info (reload p) = info p /\
    (forall c, chatId (reload p) = Some c -> chatId p = Some c).
Proof.
  intros uid ls r evs p.
  assert (H : saved p) by (apply saved_run, init_saved).
  destruct H as (H1 & H2 & H3 & H4). split.
  - unfold reload. simpl. rewrite <- H1, <- H2. unfold stored_count in H3.
    rewrite <- H3. destruct (info p); reflexivity.
  - exact H4.
Qed.

Lemma createChat_sent p r w :
  exists new, sent (createChat p r w) = (sent p ++ new)%list /\ Forall plain new.
Proof.
  cases_of createChat;
    try (exists [insert_chats (widgetId p) (name (info p)) (email (info p))];
         split; [reflexivity | repeat constructor]);
    eexists; (split; [rewrite <- app_assoc; reflexivity|]);
    repeat constructor; simpl; auto.
Qed.

Lemma addMessage_sent p m : sent (addMessage p m) = sent p.
Proof. reflexivity. Qed.

Lemma fold_addMessage_sent ms p : sent (fold_left addMessage ms p) = sent p.
Proof.
  revert p. induction ms as [|m ms IH]; intros p; simpl; [reflexivity|].
  now rewrite IH.
Qed.

Lemma step_sent p ev :
  exists new, sent (step p ev) = (sent p ++ new)%list /\ Forall plain new.
Proof.
  assert (Same : exists new, sent p = (sent p ++ new)%list /\ Forall plain new)
    by (exists []; rewrite app_nil_r; auto).
  destruct ev as [f date r w | value date r w ins | | pos n m date u | row | r];
    simpl step.
  - unfold toggleWidget.
    destruct (match f with Some b => b | None => negb (isOpen p) end); [|exact Same].
    simpl messages. destruct (messages p); [|exact Same].
    simpl current_settings. destruct (current_settings p) as [s|]; [|exact Same].
    set (q := addMessage _ _).
    destruct (chatId q); [exact Same|].
    destruct (createChat_sent q r w) as (new & E & F). exists new. rewrite E. auto.
  - unfold sendMessage. destruct (truthy (trim value)) eqn:T; simpl negb; cbv iota;
      [|exact Same].
    set (p1 := match chatId p with None => createChat p r w | Some _ => p end).
    assert (H1 : exists new, sent p1 = (sent p ++ new)%list /\ Forall plain new).
    { unfold p1. destruct (chatId p); [exact Same | apply createChat_sent]. }
    destruct H1 as (new & E & F).
    exists (new ++ [insert_chat_messages (chatId p1) (widgetId p1) (trim value)
                      "visitor" false])%list.
    split.
    + destruct (data_or_throw ins) as [data|err]; simpl.
      * unfold after_insert. destruct (wants_user_info _); simpl;
          rewrite E, <- app_assoc; reflexivity.
      * rewrite E, <- app_assoc. reflexivity.
    + apply Forall_app. split; [exact F|]. constructor; [|constructor].
      simpl. split; [reflexivity|]. right. split; [reflexivity|].
      split; [exact T | apply trim_idempotent].
  - unfold timeout. destruct (timers p); exact Same.
  - unfold submit. destruct (negb (is_form _)); [exact Same|].
    destruct (truthy (trim n) && truthy (trim m)); [|exact Same].
    exists [update_chats (chatId p) (trim n) (trim m)].
    split; [destruct u; reflexivity | repeat constructor].
  - unfold on_insert. destruct (_ && _); exact Same.
  - unfold on_history. destruct r as [[data|] [err|]|reason]; try exact Same.
    rewrite fold_addMessage_sent. exact Same.
Qed.

(** X10. The widget never writes an auto-reply: over any events, every
    message it asks the server to insert is flagged as no auto-reply and
    is sent by the business (the welcome message) or by the visitor, a
    visitor's text being trimmed and not empty; and what was sent stays
    sent. *)
Theorem widget_requests_are_plain :
  forall (p : plugin) (evs : list event),
    exists new,
      sent (run_events p evs) = (sent p ++ new)%list /\ Forall plain new.
Proof.
  intros p evs. revert p. induction evs as [|ev evs IH]; intros p; simpl.
  - exists []. rewrite app_nil_r. auto.
  - destruct (step_sent p ev) as (n1 & E1 & F1).
    destruct (IH (step p ev)) as (n2 & E2 & F2).
    exists (n1 ++ n2)%list. rewrite E2, E1, app_assoc.
    split; [reflexivity | apply Forall_app; auto].
Qed.

(** X11. A message whose insert fails stays on display, without id, but
    does not count: for a text that is not blank and a failed insert,
    [sendMessage] appends the message to the list, and leaves the message
    count, the pending prompts, the name and the email as they were. *)
Theorem failed_send_is_shown_but_not_counted :
  forall (p : plugin) (value : string) (date : timestamptz)
         (r : response uuid) (w : response unit) (ins : response uuid),
    blank value = false ->
    failed ins ->
    let p' := sendMessage p value date r w ins in
    messages p' = (messages p ++ [mk_message None (trim value) "visitor" false None date])%list /\
    info p' = info p /\
    timers p' = timers p /\
    forms p' = forms p.
Proof.
  intros p value date r w ins Hb Hf p'.
  assert (T : truthy (trim value) = true).
  { destruct (truthy (trim value)) eqn:T; [reflexivity|].
    apply trim_blank in T. congruence. }
  assert (F : data_or_throw ins = Raise
                match ins with
                | rejected reason => reason
                | resolved _ (Some err) => err
                | _ => "TypeError: data is null"
                end).
  { destruct ins as [[data|] [err|]|reason]; simpl in *; try reflexivity.
    destruct Hf. }
  unfold p', sendMessage. rewrite T, F. simpl.
  set (p1 := match chatId p with None => createChat p r w | Some _ => p end).
  assert (H1 : messages p1 = messages p /\ info p1 = info p /\
               timers p1 = timers p /\ forms p1 = forms p).
  { unfold p1. destruct (chatId p); [auto|].
    destruct (createChat_keeps p r w) as (K1 & K2 & K3).
    destruct (createChat_messages p r w) as (M1 & _). auto. }
  destruct H1 as (M & I1 & T1 & F1).
  destruct (addMessage_keeps p1 (mk_message None (trim value) "visitor" false None date))
    as (A1 & A2 & A3 & _).
  rewrite M. split; [reflexivity|].
  unfold forms in *. simpl in *. rewrite <- I1, <- T1, <- F1. auto.
Qed.

Lemma fold_addMessage_messages ms p :
  messages (fold_left addMessage ms p) = (messages p ++ ms)%list /\
  messagesElement (fold_left addMessage ms p)
  = (messagesElement p ++ map message_node ms)%list.
Proof.
  revert p. induction ms as [|m ms IH]; intros p; simpl.
  - now rewrite !app_nil_r.
  - destruct (IH (addMessage p m)) as [H1 H2]. rewrite H1, H2. simpl.
    now rewrite <- !app_assoc.
Qed.

Lemma no_form_among_messages (ms : list message) :
  List.length (filter (fun n => is_form (Some n)) (map message_node ms)) = 0.
Proof. induction ms; simpl; auto. Qed.

(** X12. A loaded history replaces what the widget shows: the list and the
    display are then exactly the loaded rows, in their order, without the
    local messages and without forms; an insert event for any of the
    loaded rows is ignored afterwards.  A load that is rejected or
    answered with an error changes nothing. *)
Theorem history_replaces_the_list :
  forall (p : plugin) (data : list chat_messages.row),
    let p' := on_history p (resolved (Some data) None) in
    messages p' = map of_row data /\
    messagesElement p' = map message_node (map of_row data) /\
    forms p' = 0 /\
    (forall row, In row data -> on_insert p' (of_row row) = p') /\
    (forall reason, on_history p (rejected reason) = p) /\
    (forall d err, on_history p (resolved d (Some err)) = p).
Proof.
  intros p data p'.
  destruct (fold_addMessage_messages (map of_row data) (set_messages p [] []))
    as [M N].
  simpl in M, N.
  assert (Hm : messages p' = map of_row data) by exact M.
  assert (Hn : messagesElement p' = map message_node (map of_row data)) by exact N.
  split; [exact Hm|]. split; [exact Hn|]. split; [|split; [|split]].
  - unfold forms. rewrite Hn. apply no_form_among_messages.
  - intros row Hin. unfold on_insert. rewrite Hm.
    assert (X : existsb (fun m => same_id (id m) (id (of_row row))) (map of_row data)
                = true).
    { apply existsb_exists. exists (of_row row). split; [now apply in_map|].
      now apply same_id_true. }
    rewrite X. simpl. now rewrite andb_false_r.
  - reflexivity.
  - intros d err. destruct d; reflexivity.
Qed.

(** X13. A form submitted with a blank name or a blank email changes
    nothing.  A submission whose update is rejected still stores name and
    email in the widget and sends the update, so that no event asks for
    the prompt again; but the form stays and no message is added. *)
Theorem rejected_submission_still_identifies :
  forall (p : plugin) (pos : nat) (nameInput emailInput : string)
         (date : timestamptz),
    (forall u, blank nameInput = true \/ blank emailInput = true ->
       submit p pos nameInput emailInput date u = p) /\
    (forall reason,
       is_form (nth_error (messagesElement p) pos) = true ->
       blank nameInput = false -> blank emailInput = false ->
       let p' := submit p pos nameInput emailInput date (rejected reason) in
       identified p' /\
       messages p' = messages p /\
       messagesElement p' = messagesElement p /\
       sent p' = (sent p ++ [update_chats (chatId p) (trim nameInput) (trim emailInput)])%list /\
       forall evs, timers (run_events p' evs) <= timers p).
Proof.
  intros p pos nameInput emailInput date. split.
  - intros u Hb. unfold submit. destruct (negb (is_form _)); [reflexivity|].
    destruct Hb as [Hb|Hb]; apply trim_blank in Hb; rewrite Hb; simpl;
      [reflexivity | now rewrite andb_false_r].
  - intros reason Hf Bn Be p'.
    assert (Tn : truthy (trim nameInput) = true).
    { destruct (truthy (trim nameInput)) eqn:T; [reflexivity|].
      apply trim_blank in T. congruence. }
    assert (Te : truthy (trim emailInput) = true).
    { destruct (truthy (trim emailInput)) eqn:T; [reflexivity|].
      apply trim_blank in T. congruence. }
    assert (E : p' = send (set_info p
                             (mk_userInfo (Some (trim nameInput)) (Some (trim emailInput))
                                (chatCount (info p)))
                             (mk_localStorage (businessChatId (storage p))
                                (Some (trim nameInput)) (Some (trim emailInput))
                                (businessChatCount (storage p))))
                        (update_chats (chatId p) (trim nameInput) (trim emailInput))).
    { unfold p', submit. rewrite Hf, Tn, Te. reflexivity. }
    assert (Hi : identified p') by (rewrite E; split; simpl; assumption).
    split; [exact Hi|]. rewrite E at 1 2 3. simpl.
    do 3 (split; [reflexivity|]).
    intros evs. destruct (identified_run evs p' Hi) as (_ & I2 & _).
    rewrite E in I2 at 2. simpl in I2. exact I2.
Qed.

(** X14. When the chat cannot be created the visitor's message is sent all
    the same, without chat id: for a widget without chat, a failed
    creation and a text that is not blank, [sendMessage] sends the insert
    of the chat and then the insert of the message with no [chat_id], and
    the widget is still without chat. *)
Theorem message_without_chat :
  forall (p : plugin) (value : string) (date : timestamptz)
         (r : response uuid) (w : response unit) (ins : response uuid),
    chatId p = None ->
    failed r ->
    blank value = false ->
    let p' := sendMessage p value date r w ins in
    sent p' = (sent p ++ [insert_chats (widgetId p) (name (info p)) (email (info p));
                          insert_chat_messages None (widgetId p) (trim value)
                            "visitor" false])%list /\
    chatId p' = None.
Proof.
  intros p value date r w ins Hc Hf Hb p'.
  assert (T : truthy (trim value) = true).
  { destruct (truthy (trim value)) eqn:T; [reflexivity|].
    apply trim_blank in T. congruence. }
  assert (F : exists err, data_or_throw r = Raise err).
  { destruct r as [[data|] [err|]|reason]; simpl in *; eauto. destruct Hf. }
  destruct F as [err F].
  unfold p', sendMessage. rewrite T, Hc. simpl negb. cbv iota.
  unfold createChat. rewrite F.
  destruct (data_or_throw ins) as [data|e']; simpl.
  - unfold after_insert. destruct (wants_user_info _); simpl;
      rewrite Hc, <- app_assoc; auto.
  - rewrite Hc, <- app_assoc. auto.
Qed.

Lemma or_default_truthy v d : truthy d = true -> truthy (or_default v d) = true.
Proof.
  intros H. unfold or_default. destruct v as [s|]; [|exact H].
  destruct (truthy s) eqn:T; [exact T | exact H].
Qed.

(** X15. Once the script is loaded [init] always ends with an initialized
    widget, whatever the settings request gives: the settings are set,
    none of colour, header text and welcome message is empty, a logo is
    absent or not empty, and the elements are built from these settings.
    When the script cannot be loaded nothing is built. *)
Theorem init_always_builds_the_widget :
  forall (uid : uuid) (ls : localStorage) (r : response widgets.row),
    (let p := init (constructor uid ls) (Ok tt) r in
     isInitialized p = true /\
     exists s,
       current_settings p = Some s /\
       truthy (primaryColor s) = true /\
       truthy (headerText s) = true /\
       truthy (welcomeMessage s) = true /\
       logoUrl s <> Some "" /\
       widgetElement p = Some (mk_elements (primaryColor s) (headerText s) (logoUrl s))) /\
    (forall err,
       let p := init (constructor uid ls) (Raise err) r in
       isInitialized p = false /\ widgetElement p = None /\ current_settings p = None).
Proof.
  intros uid ls r. split; [|intros err; simpl; auto].
  unfold init, fetchWidgetSettings, fetchWidgetSettings_try.
  destruct r as [[data|] [err|]|reason]; simpl;
    try (split; [reflexivity|]; exists default_settings; simpl;
         repeat split; auto; discriminate).
  split; [reflexivity|]. eexists. split; [reflexivity|]. simpl.
  repeat split; try (apply or_default_truthy; reflexivity).
  destruct (widgets.logo_url data) as [[|c l]|]; simpl; discriminate.
Qed.

(** X16. Toggling adds at most the welcome message, and only to an empty
    list: whatever the toggle and the answers of the server, the list of
    messages grows by nothing when it was not empty or the widget is
    closed, and otherwise by at most one message, which is the welcome
    message of the settings, sent by the business, without id and no
    auto-reply. *)
Theorem toggle_adds_only_the_welcome_message :
  forall (p : plugin) (forceState : option bool) (date : timestamptz)
         (r : response uuid) (w : response unit),
    let p' := toggleWidget p forceState date r w in
    exists added,
      messages p' = (messages p ++ added)%list /\
      List.length added <= 1 /\
      (messages p <> [] -> added = []) /\
      (isOpen p' = false -> added = []) /\
      (forall m, In m added ->
         exists s, current_settings p = Some s /\
                   m = mk_message None (welcomeMessage s) "business" false None date).
Proof.
  intros p forceState date r w p'.
  assert (Same : forall q, messages q = messages p ->
                           exists added,
                             messages q = (messages p ++ added)%list /\
                             List.length added <= 1 /\
                             (messages p <> [] -> added = []) /\
                             (isOpen q = false -> added = []) /\
                             (forall m, In m added ->
                                exists s, current_settings p = Some s /\
                                  m = mk_message None (welcomeMessage s) "business"
                                        false None date)).
  { intros q Hq. exists []. rewrite app_nil_r. repeat split; auto.
    intros m []. }
  unfold p', toggleWidget.
  destruct (match forceState with Some b => b | None => negb (isOpen p) end).
  - simpl messages. destruct (messages p) as [|m0 ms] eqn:M.
    + simpl current_settings. destruct (current_settings p) as [s|] eqn:S.
      * set (q := addMessage _ _).
        assert (Hq : messages q = [mk_message None (welcomeMessage s) "business"
                                     false None date] /\ isOpen q = true)
          by (unfold q; simpl; rewrite M; auto).
        destruct Hq as [Hq Ho].
        assert (Hc : messages (createChat q r w) = messages q /\
                     isOpen (createChat q r w) = true).
        { split; [apply createChat_messages|]. cases_of createChat; exact Ho. }
        assert (Hp : messages (match chatId p with
                               | Some _ => q
                               | None => createChat q r w
                               end) = messages q /\
                     isOpen (match chatId p with
                             | Some _ => q
                             | None => createChat q r w
                             end) = true)
          by (destruct (chatId p); [split; [reflexivity | exact Ho] | exact Hc]).
        destruct Hp as [Hp1 Hp2].
        exists [mk_message None (welcomeMessage s) "business" false None date].
        split; [etransitivity; [exact Hp1 | exact Hq]|].
        split; [simpl; lia|]. split; [congruence|]. split.
        -- intros H. exfalso. apply (eq_true_false_abs _ Hp2). exact H.
        -- intros m [<-|[]]. eauto.
      * apply Same; simpl; auto.
    + apply Same; simpl; auto.
  - apply Same; simpl; auto.
Qed.

End SessionTheorems.

(** ** The dashboard pages and the script tags *)

Section DashboardTheorems.
Import Text Js.

Lemma filter_map_same_id (i : uuid) (f : widgets.row -> widgets.row)
    (l : list widgets.row) :
  (forall w, widgets.id (f w) = widgets.id w) ->
  filter (fun w => widgets.id w =? i)%nat (map f l)
  = map f (filter (fun w => widgets.id w =? i)%nat l).
Proof.
  intros H. induction l as [|w l IH]; simpl; [reflexivity|].
  rewrite H. destruct (widgets.id w =? i)%nat; simpl; now rewrite IH.
Qed.

Lemma filter_filter_comm {A} (f g : A -> bool) (l : list A) :
  filter f (filter g l) = filter g (filter f l).
Proof.
  induction l as [|a l IH]; simpl; [reflexivity|].
  destruct (f a) eqn:F; destruct (g a) eqn:G; simpl; rewrite ?F, ?G, IH; reflexivity.
Qed.

Lemma map_same {A} (f : A -> A) (l : list A) :
  (forall a, In a l -> f a = a) -> map f l = l.
Proof.
  induction l as [|a l IH]; intros H; simpl; [reflexivity|].
  rewrite (H a (or_introl eq_refl)), IH; [reflexivity|].
  intros x Hx. apply H. now right.
Qed.

(** X17. What the settings page saves reaches those who may view the
    widget, and nobody else.  When the update fails, or no widget is
    loaded, [handleSave] shows its error and nothing is saved.  When it
    returns for a widget that exists: if the role of the page may not
    update the widget, the database is as before; if it may, a chat
    widget that fetches the settings as a role that can view the widget
    gets the saved colour, header text and welcome message, each replaced
    by its default when saved empty, and the saved logo, or none when
    saved empty, and a chat widget that fetches them as any other role,
    as [anon], falls back to the default settings. *)
Theorem saved_settings_reach_who_may_view :
  (forall (e : Database.env) (d : Database.db) (st : WidgetSettingsPage.page)
          (code : string),
     WidgetSettingsPage.handleSave e d st (WidgetSettingsPage.fails code)
     = Raise WidgetSettingsPage.save_failed /\
     (WidgetSettingsPage.widgetId st = None ->
      WidgetSettingsPage.handleSave e d st WidgetSettingsPage.runs
      = Raise WidgetSettingsPage.save_failed)) /\
  (forall (e reader : Database.env) (d d' : Database.db) (st : WidgetSettingsPage.page)
          (update : WidgetSettingsPage.server) (i : uuid) (row : widgets.row)
          (p : Widget.plugin),
     WidgetSettingsPage.widgetId st = Some i ->
     filter (fun w => widgets.id w =? i)%nat (Database.tbl_widgets d) = [row] ->
     WidgetSettingsPage.handleSave e d st update = Ok d' ->
     (WidgetSettingsPage.update_widget_allowed (Database.role e) row = false -> d' = d) /\
     (WidgetSettingsPage.update_widget_allowed (Database.role e) row = true ->
      Widget.fetchWidgetSettings p (WidgetSettingsPage.select_widget reader d' i)
      = Ok (Widget.set_settings p
              (if Database.view_widget (Database.role reader) row
               then WidgetSettingsPage.shown st
               else Widget.default_settings)))).
Proof.
  split.
  - intros e d st code. split; [reflexivity|]. intros H.
    unfold WidgetSettingsPage.handleSave. now rewrite H.
  - intros e reader d d' st update i row p Hi Hrow.
    assert (E : (widgets.id row =? i)%nat = true).
    { assert (Hin : In row (filter (fun w => widgets.id w =? i)%nat (Database.tbl_widgets d)))
        by (rewrite Hrow; left; reflexivity).
      apply filter_In in Hin. apply Hin. }
    assert (Only : forall w, In w (Database.tbl_widgets d) ->
                             (widgets.id w =? i)%nat = true -> w = row).
    { intros w Hw Hid.
      assert (Hin : In w (filter (fun w => widgets.id w =? i)%nat (Database.tbl_widgets d)))
        by (apply filter_In; auto).
      rewrite Hrow in Hin. destruct Hin as [<-|[]]. reflexivity. }
    unfold WidgetSettingsPage.handleSave. rewrite Hi.
    destruct update as [|code]; [|discriminate].
    intros H. injection H as <-. split.
    + intros Hno. destruct d as [ws rs cs ms n]. simpl in *. f_equal.
      apply map_same. intros w Hw.
      destruct (widgets.id w =? i)%nat eqn:Hid; [|reflexivity].
      rewrite (Only w Hw Hid), Hno. reflexivity.
    + intros Hyes. unfold WidgetSettingsPage.select_widget. simpl Database.tbl_widgets.
      rewrite filter_filter_comm.
      rewrite filter_map_same_id by (intros w; destruct (_ && _); reflexivity).
      rewrite Hrow. simpl map. rewrite E, Hyes. simpl andb. cbv iota.
      simpl filter.
      change (Database.view_widget (Database.role reader)
                (widgets.mk (widgets.id row) (widgets.user_id row)
                   (Some (WidgetSettingsPage.primaryColor st))
                   (Some (WidgetSettingsPage.headerText st))
                   (Some (WidgetSettingsPage.welcomeMessage st))
                   (Some (WidgetSettingsPage.logoUrl st))
                   (widgets.created_at row) (Database.now e)))
        with (Database.view_widget (Database.role reader) row).
      destruct (Database.view_widget (Database.role reader) row).
      * unfold WidgetSettingsPage.single, Widget.fetchWidgetSettings,
          Widget.fetchWidgetSettings_try, WidgetSettingsPage.shown. simpl.
        reflexivity.
      * reflexivity.
Qed.

Lemma owned_app d user extra :
  filter (fun w => widgets.user_id w =? user)%nat (Database.tbl_widgets d ++ extra)
  = (WidgetSettingsPage.owned d user
     ++ filter (fun w => widgets.user_id w =? user)%nat extra)%list.
Proof. apply filter_app. Qed.

Lemma own_widgets_viewed r user (l : list widgets.row) :
  WidgetSettingsPage.create_widget_allowed r user = true ->
  filter (fun w => widgets.user_id w =? user)%nat (filter (Database.view_widget r) l)
  = filter (fun w => widgets.user_id w =? user)%nat l.
Proof.
  intros Hp. rewrite filter_filter_comm.
  induction l as [|w l IH]; simpl; [reflexivity|].
  destruct (widgets.user_id w =? user)%nat eqn:U; simpl; [|exact IH].
  assert (V : Database.view_widget r w = true).
  { apply Nat.eqb_eq in U. unfold Database.view_widget. rewrite U. exact Hp. }
  rewrite V, IH. reflexivity.
Qed.

(** X18. Loading the settings page as the signed-in user, when it
    succeeds, leaves the user with exactly one widget when there was at
    most one: an existing widget is read and the database stays as it
    is; without one a widget with the default settings is created, for
    which a chat widget, whatever role it fetches as, shows the default
    settings, the new id being unused.  The page then holds the id of the
    user's widget, and the widgets of other users are as before.  The
    load succeeds when the read runs and, for a user without widget, the
    insert runs; when the read fails with an error other than PGRST116,
    or the insert fails, the page shows its error and nothing is
    created.  PGRST116 is what [.single()] answers for no row: a failure
    with that very code the page takes for a user without widget. *)
Theorem page_load_gives_one_widget :
  forall (e : Database.env) (d : Database.db) (user : uuid)
         (st : WidgetSettingsPage.page) (select insert : WidgetSettingsPage.server),
    List.length (WidgetSettingsPage.owned d user) <= 1 ->
    WidgetSettingsPage.create_widget_allowed (Database.role e) user = true ->
    (forall d' st',
       select <> WidgetSettingsPage.fails "PGRST116" ->
       WidgetSettingsPage.fetchWidgetSettings e d user st select insert = Ok (d', st') ->
       (exists w, WidgetSettingsPage.owned d' user = [w] /\
                  WidgetSettingsPage.widgetId st' = Some (widgets.id w)) /\
       (WidgetSettingsPage.owned d user <> [] -> d' = d) /\
       (forall other, other <> user ->
          WidgetSettingsPage.owned d' other = WidgetSettingsPage.owned d other) /\
       (WidgetSettingsPage.owned d user = [] ->
        (forall w, In w (Database.tbl_widgets d) -> widgets.id w <> Database.next_uuid d) ->
        forall reader p,
          Widget.fetchWidgetSettings p
            (WidgetSettingsPage.select_widget reader d' (Database.next_uuid d))
          = Ok (Widget.set_settings p Widget.default_settings))) /\
    (select = WidgetSettingsPage.runs ->
     WidgetSettingsPage.owned d user <> [] \/ insert = WidgetSettingsPage.runs ->
     exists r, WidgetSettingsPage.fetchWidgetSettings e d user st select insert = Ok r) /\
    (forall code,
       select = WidgetSettingsPage.fails code -> code <> "PGRST116" ->
       WidgetSettingsPage.fetchWidgetSettings e d user st select insert
       = Raise WidgetSettingsPage.load_failed) /\
    (forall code,
       select = WidgetSettingsPage.runs ->
       WidgetSettingsPage.owned d user = [] -> insert = WidgetSettingsPage.fails code ->
       WidgetSettingsPage.fetchWidgetSettings e d user st select insert
       = Raise WidgetSettingsPage.load_failed).
Proof.
  intros e d user st select insert Hlen Hp.
  assert (Run : WidgetSettingsPage.select_own_widget e d user WidgetSettingsPage.runs
                = WidgetSettingsPage.single (WidgetSettingsPage.owned d user))
    by (unfold WidgetSettingsPage.select_own_widget; now rewrite own_widgets_viewed).
  split; [|split; [|split]].
  - intros d' st' Hsel. unfold WidgetSettingsPage.fetchWidgetSettings.
    destruct select as [|code].
    + rewrite Run.
      destruct (WidgetSettingsPage.owned d user) as [|w [|w2 rest]] eqn:O;
        [| |simpl in Hlen; lia]; simpl.
      * unfold WidgetSettingsPage.insert_own_widget.
        destruct insert as [|code]; [|discriminate]. rewrite Hp.
        intros H. injection H as <- <-. split; [|split; [|split]].
        -- exists (WidgetSettingsPage.new_widget e d user).
           unfold WidgetSettingsPage.owned. simpl. rewrite owned_app, O. simpl.
           rewrite Nat.eqb_refl. auto.
        -- intros H. now contradiction H.
        -- intros other Hne. unfold WidgetSettingsPage.owned at 1. simpl.
           rewrite owned_app. simpl.
           destruct (user =? other)%nat eqn:E;
             [apply Nat.eqb_eq in E; congruence | apply app_nil_r].
        -- intros _ Hfresh reader p. unfold WidgetSettingsPage.select_widget. simpl.
           rewrite filter_filter_comm, filter_app. simpl. rewrite Nat.eqb_refl.
           assert (N : filter (fun w => widgets.id w =? Database.next_uuid d)%nat
                         (Database.tbl_widgets d) = []).
           { induction (Database.tbl_widgets d) as [|a l IH]; simpl; [reflexivity|].
             destruct (widgets.id a =? Database.next_uuid d)%nat eqn:E.
             - apply Nat.eqb_eq in E. exfalso. apply (Hfresh a); [now left | exact E].
             - apply IH. intros w Hw. apply Hfresh. now right. }
           rewrite N. simpl.
           destruct (Database.view_widget (Database.role reader)
                       (WidgetSettingsPage.new_widget e d user)); reflexivity.
      * intros H. injection H as <- <-. split; [|split; [|split]].
        -- exists w. rewrite O. auto.
        -- reflexivity.
        -- reflexivity.
        -- discriminate.
    + simpl. destruct (String.eqb code "PGRST116") eqn:C; simpl; [|discriminate].
      apply String.eqb_eq in C. subst code. now contradiction Hsel.
  - intros -> Hcase. unfold WidgetSettingsPage.fetchWidgetSettings. rewrite Run.
    destruct (WidgetSettingsPage.owned d user) as [|w [|w2 rest]] eqn:O;
      [| |simpl in Hlen; lia]; simpl.
    + destruct Hcase as [Hcase| ->]; [now contradiction Hcase|].
      unfold WidgetSettingsPage.insert_own_widget. rewrite Hp. eauto.
    + eauto.
  - intros code -> Hcode. unfold WidgetSettingsPage.fetchWidgetSettings. simpl.
    apply String.eqb_neq in Hcode. rewrite Hcode. reflexivity.
  - intros code -> O ->. unfold WidgetSettingsPage.fetchWidgetSettings.
    rewrite Run, O. reflexivity.
Qed.

Lemma copies_app x l1 l2 :
  ChatTabPage.copies x (l1 ++ l2) = ChatTabPage.copies x l1 + ChatTabPage.copies x l2.
Proof. unfold ChatTabPage.copies. now rewrite filter_app, length_app. Qed.

Lemma copies_update x new l :
  ChatTabPage.copies x
    (map (fun message =>
            if (chat_messages.id message =? chat_messages.id new)%nat then new
            else message) l)
  = ChatTabPage.copies x l.
Proof.
  unfold ChatTabPage.copies. induction l as [|m l IH]; simpl; [reflexivity|].
  destruct (chat_messages.id m =? chat_messages.id new)%nat eqn:E.
  - apply Nat.eqb_eq in E. rewrite E.
    destruct (chat_messages.id new =? x)%nat; simpl; now rewrite IH.
  - destruct (chat_messages.id m =? x)%nat; simpl; now rewrite IH.
Qed.

(** X19. The dashboard shows a message once for every insert event it
    receives for it: over any payloads, the number of rows with a given
    id in the list grows by the number of insert events for that id, a
    repeated delivery included; update events replace rows and change no
    count. *)
Theorem dashboard_shows_every_delivery :
  forall (messages : list chat_messages.row)
         (payloads : list (ChatTabPage.change chat_messages.row)) (x : uuid),
    ChatTabPage.copies x (fold_left ChatTabPage.on_messages_change payloads messages)
    = ChatTabPage.copies x messages + ChatTabPage.inserts_of x payloads.
Proof.
  intros messages payloads x. revert messages.
  induction payloads as [|pl payloads IH]; intros messages; simpl.
  - unfold ChatTabPage.inserts_of. simpl. lia.
  - rewrite IH. unfold ChatTabPage.inserts_of. destruct pl as [new|new|old]; simpl.
    + rewrite copies_app. unfold ChatTabPage.copies at 2. simpl.
      destruct (chat_messages.id new =? x)%nat; simpl; lia.
    + rewrite copies_update. lia.
    + lia.
Qed.

Lemma getElementById_app document extra i :
  Embed.getElementById document i = None ->
  Embed.getElementById (document ++ extra) i = Embed.getElementById extra i.
Proof.
  unfold Embed.getElementById. induction document as [|el l IH]; simpl; [reflexivity|].
  destruct (match Embed.attr_id el with Some j => String.eqb j i | None => false end);
    [discriminate | exact IH].
Qed.

(** X20. The widget starts with the uid of the tag that embeds it: on a
    page without an element of id "business-chat-widget", the loader run
    from a tag with a [data-uid] that is not empty appends the script of
    the widget, and its start then finds that uid; so it does for the tag
    the settings page offers.  Without [data-uid] the loader adds
    nothing; and where the page has such an element already, the start
    reads the first one, whatever follows. *)
Theorem widget_starts_with_the_uid_of_its_tag :
  forall (document : list Embed.element),
    (forall tag u,
       Embed.getElementById document "business-chat-widget" = None ->
       Embed.data_uid tag = Some u -> truthy u = true ->
       Embed.start (Embed.loader document tag) = Ok u) /\
    (forall origin u,
       Embed.getElementById document "business-chat-widget" = None ->
       truthy u = true ->
       Embed.start (document ++ [Embed.scriptCode origin u]) = Ok u) /\
    (forall tag, truthy_opt (Embed.data_uid tag) = false ->
       Embed.loader document tag = document) /\
    (forall el rest,
       Embed.attr_id el = Some "business-chat-widget" ->
       Embed.start (el :: document) = Embed.start (el :: rest)).
Proof.
  intros document. split; [|split; [|split]].
  - intros tag u Hnone Hu Tu. unfold Embed.loader, Embed.start. rewrite Hu, Tu.
    rewrite getElementById_app by exact Hnone. simpl. now rewrite Tu.
  - intros origin u Hnone Tu. unfold Embed.start.
    rewrite getElementById_app by exact Hnone. simpl. now rewrite Tu.
  - intros tag H. unfold Embed.loader.
    destruct (Embed.data_uid tag) as [u|]; [|reflexivity].
    simpl in H. now rewrite H.
  - intros el rest H. unfold Embed.start, Embed.getElementById. simpl.
    rewrite H. reflexivity.
Qed.

(** X21. A text of white space only is never sent: the widget's
    [sendMessage] does nothing for it, neither display nor request; the
    visitor's and the agent's send leave the database as it is; and the
    add form refuses it as keyword and as response. *)
Theorem blank_text_is_never_sent :
  forall (value : string),
    blank value = true ->
    (forall p date r w ins, Widget.sendMessage p value date r w ins = p) /\
    (forall e d chat wid,
       Operations.perform e d (Operations.widget_sendMessage chat wid value) = Ok d) /\
    (forall e d chat wid date later,
       Operations.perform e d
         (Operations.dashboard_handleSendMessage chat wid value date later) = Ok d) /\
    (forall user w other,
       AutoReplyPage.handleAddAutoReply user w value other
       = Raise "Both keyword and response are required." /\
       AutoReplyPage.handleAddAutoReply user w other value
       = Raise "Both keyword and response are required.").
Proof.
  intros value Hb. apply trim_blank in Hb.
  split; [|split; [|split]].
  - intros. unfold Widget.sendMessage. now rewrite Hb.
  - intros. unfold Operations.perform. now rewrite Hb.
  - intros. unfold Operations.perform. now rewrite Hb.
  - intros. unfold AutoReplyPage.handleAddAutoReply. rewrite Hb. simpl.
    split; [reflexivity | now rewrite orb_true_r].
Qed.

End DashboardTheorems.

(** ** The further properties on the sample data *)

Section MoreInstances.
Import Database Sample MoreSamples.

(** X1 on a keyword with white space around it and on the sample file. *)
Lemma dashboard_rows_are_clean_witness :
  AutoReplyPage.clean "hours" /\
  (1 <= 2 <= List.length (Js.split Js.newline rules_csv) - 1 /\
   Forall (fun v => AutoReplyPage.v_user_id v = 7 /\ AutoReplyPage.v_widget_id v = 1 /\
                    AutoReplyPage.clean (AutoReplyPage.v_keyword v) /\
                    AutoReplyPage.clean (AutoReplyPage.v_response v))
     [AutoReplyPage.mk_values 7 1 "pricing" "From 19 a month";
      AutoReplyPage.mk_values 7 1 "hours" "9-5 EST"]).
Proof.
  pose proof (dashboard_rows_are_clean 7 1) as [H1 H2]. split.
  - exact (proj1 (proj2 (H1 " hours " "9-5 EST" _ eq_refl))).
  - apply (H2 rules_csv
             [AutoReplyPage.mk_values 7 1 "pricing" "From 19 a month";
              AutoReplyPage.mk_values 7 1 "hours" "9-5 EST"]).
    reflexivity.
Defined.

(** X2 on the shop, after an added rule, the sample file and a deletion. *)
Lemma rule_store_stays_clean_witness :
  Matcher.match_rule ""
    (rules_of
       (AutoReplyPage.perform_all shop
          [(fine, AutoReplyPage.add 7 1 " hi " "Hello");
           (fine, AutoReplyPage.upload 7 1 rules_csv);
           (fine, AutoReplyPage.remove 4)]) 1) = None.
Proof.
  apply (rule_store_stays_clean shop
           [(fine, AutoReplyPage.add 7 1 " hi " "Hello");
            (fine, AutoReplyPage.upload 7 1 rules_csv);
            (fine, AutoReplyPage.remove 4)]).
  constructor; [|constructor].
  split; (split; [discriminate | reflexivity]).
Defined.

(** X3 on the rules "hi" and "hours", searched for "OUR". *)
Lemma search_lists_the_containing_rules_witness :
  In rule_hours (AutoReplyPage.filteredAutoReplies "OUR" [rule_hi; rule_hours]).
Proof.
  apply (proj1 (search_lists_the_containing_rules "OUR" [rule_hi; rule_hours])).
  split; [right; left; reflexivity|].
  left. exists "h", "s". reflexivity.
Defined.

(** X4 on the question about the hours, shouted. *)
Lemma matching_ignores_case_witness :
  Matcher.match_rule "WHAT ARE YOUR HOURS?" [rule_hours]
  = Matcher.match_rule "what are your hours?" [rule_hours].
Proof.
  apply (proj1 matching_ignores_case). reflexivity.
Defined.

(** X5 on the question about the hours. *)
Lemma auto_reply_quotes_a_rule_of_the_widget_witness :
  exists rule,
    In rule (tbl_auto_replies shop) /\
    auto_replies.widget_id rule = 1 /\
    Matcher.contained "what are your hours?" rule /\
    chat_messages.auto_reply_keyword reply_row = Some (auto_replies.keyword rule) /\
    chat_messages.content reply_row = auto_replies.response rule /\
    chat_messages.chat_id reply_row = 1 /\
    chat_messages.widget_id reply_row = 1 /\
    chat_messages.sender_type reply_row = "business" /\
    chat_messages.is_auto_reply reply_row = true.
Proof.
  apply (auto_reply_quotes_a_rule_of_the_widget 98 fine shop
           (commit shop (insert_chat_message max_depth fine shop hours_question))
           hours_question reply_row).
  - reflexivity.
  - right. left. reflexivity.
  - intros [].
  - discriminate.
Defined.

(** X6 on the question about the hours. *)
Lemma insert_touches_only_its_chat_witness :
  tbl_auto_replies (commit shop (insert_chat_message max_depth fine shop hours_question))
  = tbl_auto_replies shop.
Proof.
  apply (insert_touches_only_its_chat 98 fine shop _ hours_question). reflexivity.
Defined.


(** X9 on the offline widget after six messages: the reload has the
    count 6. *)
Lemma reload_restores_the_session_witness :
  Widget.chatCount
    (Widget.info (Session.reload (Widget.run_events offline_widget six_messages))) = 6.
Proof.
  pose proof (reload_restores_the_session 1 (Widget.mk_localStorage None None None None)
                (Widget.rejected "Failed to fetch") six_messages) as H.
  cbv zeta in H. destruct H as [H _].
  change (Widget.run_events
            (Widget.init (Widget.constructor 1 (Widget.mk_localStorage None None None None))
               (Ok tt) (Widget.rejected "Failed to fetch")) six_messages)
    with (Widget.run_events offline_widget six_messages) in H.
  rewrite H. reflexivity.
Defined.

(** X11 on a message the server refuses. *)
Lemma failed_send_is_shown_but_not_counted_witness :
  Widget.info
    (Widget.sendMessage offline_widget "hello" 5%Z (Widget.resolved (Some 1) None)
       (Widget.resolved None None) (Widget.rejected "offline"))
  = Widget.info offline_widget.
Proof.
  apply (failed_send_is_shown_but_not_counted offline_widget "hello" 5%Z
           (Widget.resolved (Some 1) None) (Widget.resolved None None)
           (Widget.rejected "offline")).
  - reflexivity.
  - exact I.
Defined.

(** X12 on a history of the question and its reply. *)
Lemma history_replaces_the_list_witness :
  let p := Widget.on_history offline_widget
             (Widget.resolved (Some [question_row; reply_row]) None) in
  Widget.on_insert p (Widget.of_row reply_row) = p.
Proof.
  intros p.
  apply (history_replaces_the_list offline_widget [question_row; reply_row]).
  right. left. reflexivity.
Defined.

(** X13 on the form of the prompted widget. *)
Lemma rejected_submission_still_identifies_witness :
  Widget.submit prompted_widget 6 "  " "ada@example.org" 9%Z (Widget.resolved None None)
  = prompted_widget /\
  Widget.identified
    (Widget.submit prompted_widget 6 "Ada" "ada@example.org" 9%Z (Widget.rejected "offline")).
Proof.
  split.
  - apply (proj1 (rejected_submission_still_identifies prompted_widget 6 "  "
                    "ada@example.org" 9%Z)).
    left. reflexivity.
  - apply (proj2 (rejected_submission_still_identifies prompted_widget 6 "Ada"
                    "ada@example.org" 9%Z) "offline"); reflexivity.
Defined.

(** X14 on the offline widget, the creation of the chat failing. *)
Lemma message_without_chat_witness :
  Widget.chatId
    (Widget.sendMessage offline_widget "hello" 5%Z (Widget.rejected "offline")
       (Widget.resolved None None) (Widget.rejected "offline")) = None.
Proof.
  apply (message_without_chat offline_widget "hello" 5%Z (Widget.rejected "offline")
           (Widget.resolved None None) (Widget.rejected "offline")).
  - reflexivity.
  - exact I.
  - reflexivity.
Defined.

(** X16 on the first opening of the offline widget. *)
Lemma toggle_adds_only_the_welcome_message_witness :
  exists added,
    Widget.messages
      (Widget.toggleWidget offline_widget None 3%Z (Widget.resolved (Some 1) None)
         (Widget.resolved None None))
    = added /\ List.length added <= 1.
Proof.
  destruct (toggle_adds_only_the_welcome_message offline_widget None 3%Z
              (Widget.resolved (Some 1) None) (Widget.resolved None None))
    as (added & E & L & _).
  exists added. split; [exact E | exact L].
Defined.

(** X17 on the shop's widget and the red page, saved by the owner: the
    owner's session gets the saved settings, a widget that has not
    signed in the defaults. *)
Lemma saved_settings_reach_who_may_view_witness :
  let d' := commit shop
              (WidgetSettingsPage.handleSave fine shop red_page WidgetSettingsPage.runs) in
  Widget.fetchWidgetSettings offline_widget (WidgetSettingsPage.select_widget fine d' 1)
  = Ok (Widget.set_settings offline_widget
          (Widget.mk_settings "#ff0000" "Chat with us" "Welcome" None)) /\
  Widget.fetchWidgetSettings offline_widget
    (WidgetSettingsPage.select_widget not_signed_in d' 1)
  = Ok (Widget.set_settings offline_widget Widget.default_settings).
Proof.
  pose proof (proj2 saved_settings_reach_who_may_view) as H.
  cbv zeta. split.
  - apply (proj2 (H fine fine shop _ red_page WidgetSettingsPage.runs 1 widget_1
                    offline_widget eq_refl eq_refl eq_refl)).
    reflexivity.
  - apply (proj2 (H fine not_signed_in shop _ red_page WidgetSettingsPage.runs 1 widget_1
                    offline_widget eq_refl eq_refl eq_refl)).
    reflexivity.
Defined.

(** X18 on the shop: its owner has a widget, user 8 has none and gets
    one, unless the insert fails. *)
Lemma page_load_gives_one_widget_witness :
  (exists st',
     WidgetSettingsPage.fetchWidgetSettings fine shop 7 WidgetSettingsPage.initial
       WidgetSettingsPage.runs WidgetSettingsPage.runs = Ok (shop, st')) /\
  (exists d' st' w,
     WidgetSettingsPage.fetchWidgetSettings signed_in_8 shop 8 WidgetSettingsPage.initial
       WidgetSettingsPage.runs WidgetSettingsPage.runs = Ok (d', st') /\
     WidgetSettingsPage.owned d' 8 = [w]) /\
  WidgetSettingsPage.fetchWidgetSettings signed_in_8 shop 8 WidgetSettingsPage.initial
    WidgetSettingsPage.runs (WidgetSettingsPage.fails "57014")
  = Raise WidgetSettingsPage.load_failed.
Proof.
  assert (L7 : List.length (WidgetSettingsPage.owned shop 7) <= 1) by (simpl; lia).
  assert (L8 : List.length (WidgetSettingsPage.owned shop 8) <= 1) by (simpl; lia).
  split; [|split].
  - destruct (page_load_gives_one_widget fine shop 7 WidgetSettingsPage.initial
                WidgetSettingsPage.runs WidgetSettingsPage.runs L7 eq_refl)
      as (H1 & H2 & _).
    destruct H2 as [[d' st'] E]; [reflexivity | left; discriminate |].
    destruct (H1 d' st') as (_ & Hd & _); [discriminate | exact E |].
    exists st'. rewrite E. f_equal. f_equal. apply Hd. discriminate.
  - destruct (page_load_gives_one_widget signed_in_8 shop 8 WidgetSettingsPage.initial
                WidgetSettingsPage.runs WidgetSettingsPage.runs L8 eq_refl)
      as (H1 & H2 & _).
    destruct H2 as [[d' st'] E]; [reflexivity | right; reflexivity |].
    destruct (H1 d' st') as ((w & Hw & _) & _); [discriminate | exact E |].
    exists d', st', w. split; [exact E | exact Hw].
  - apply (proj2 (proj2 (proj2
      (page_load_gives_one_widget signed_in_8 shop 8 WidgetSettingsPage.initial
         WidgetSettingsPage.runs (WidgetSettingsPage.fails "57014") L8 eq_refl)))
      "57014"); reflexivity.
Defined.

(** X22 on the question about the hours, asked as the owner of the rule. *)
Lemma auto_reply_is_persisted_witness :
  exists d',
    insert_chat_message max_depth fine shop hours_question = Ok d' /\
    tbl_chat_messages d'
    = [chat_messages.mk 10 1 1 "what are your hours?" "visitor" false None 1000%Z;
       chat_messages.mk 11 1 1 "9-5 EST" "business" true (Some "hours") 1000%Z].
Proof.
  pose proof (auto_reply_is_persisted 98 fine shop hours_question rule_hours) as H.
  cbv zeta in H.
  destruct H as (d' & H1 & H2 & _).
  - split; [reflexivity | intros s; reflexivity].
  - split; reflexivity.
  - reflexivity.
  - reflexivity.
  - exists d'. split; [exact H1 | exact H2].
Defined.

(** X23 on the question about the hours, asked by user 9, who can view
    no rule of the shop. *)
Lemma auto_reply_needs_a_viewable_rule_witness :
  commit shop (insert_chat_message max_depth visitor_9 shop hours_question)
  = store_row visitor_9 shop hours_question.
Proof.
  apply (proj2 (proj2 (auto_reply_needs_a_viewable_rule 98 visitor_9 shop hours_question))).
  - intros r [<-|[]]. reflexivity.
  - reflexivity.
Defined.

(** X20 on a page with the loader's tag only. *)
Lemma widget_starts_with_the_uid_of_its_tag_witness :
  Embed.start (Embed.loader [loader_tag] loader_tag) = Ok "w-1".
Proof.
  apply (proj1 (widget_starts_with_the_uid_of_its_tag [loader_tag]) loader_tag "w-1");
    reflexivity.
Defined.

(** X21 on a text of two spaces and a tab. *)
Lemma blank_text_is_never_sent_witness :
  Widget.sendMessage offline_widget (String " " (String " " (String "009" "")))
    5%Z (Widget.resolved (Some 1) None) (Widget.resolved None None)
    (Widget.resolved (Some 11) None)
  = offline_widget.
Proof.
  apply (blank_text_is_never_sent (String " " (String " " (String "009" "")))).
  reflexivity.
Defined.

End MoreInstances.
